(** * Attendance app: the submission handler and the stats handler

    A shallow embedding of the two Netlify functions of the repository,
    [netlify/functions/submitAttendance.js] and [netlify/functions/stats.js],
    with the properties their specification states about them.

    Layout: the JavaScript the handlers rely on (property lookup on plain
    objects, [Array.prototype.sort], exceptions); the documents and the store,
    a handler being a tree of store operations; the two handlers; the
    vocabulary of the statements; lemmas and theorems, handler by handler. *)

From Stdlib Require Import ZArith Ascii String.
From stdpp Require Import gmap strings list pretty sorting.

Open Scope string_scope.
Open Scope list_scope.
Open Scope nat_scope.

(** ** JavaScript: plain objects

    [WINDOWS] and [sectionData] are object literals, so a lookup [o[k]] first
    consults the own properties of [o] and then [Object.prototype].  The
    prototype carries twelve built-in members; eleven are functions and
    [__proto__] is an accessor that returns [Object.prototype] itself.  A
    write through that accessor's result lands on the prototype, where every
    later lookup on every plain object of the process finds it: [Proto] holds
    the properties so written.  In these handlers they are counts keyed by a
    date. *)

Module Js.

Definition prototype_functions : list string :=
  [ "constructor"; "__defineGetter__"; "__defineSetter__"; "hasOwnProperty";
    "__lookupGetter__"; "__lookupSetter__"; "isPrototypeOf";
    "propertyIsEnumerable"; "toString"; "valueOf"; "toLocaleString" ].

Abbreviation Proto := (gmap string nat).

Inductive property (A : Type) : Type :=
| Own (a : A)              (* an own property of the object *)
| ObjectPrototype          (* o["__proto__"] *)
| BuiltinFunction          (* o["constructor"], o["toString"], ... *)
| Inherited (n : nat)      (* a number written onto Object.prototype *)
| Undefined.

Arguments Own {A} a.
Arguments ObjectPrototype {A}.
Arguments BuiltinFunction {A}.
Arguments Inherited {A} n.
Arguments Undefined {A}.

(** [o[k]] for an object literal [o] whose own properties are [own]. *)
Definition get {A} (own : gmap string A) (proto : Proto) (k : string) : property A :=
  match own !! k with
  | Some a => Own a
  | None =>
      if decide (k = "__proto__") then ObjectPrototype
      else if decide (k ∈ prototype_functions) then BuiltinFunction
      else match proto !! k with
           | Some n => Inherited n
           | None => Undefined
           end
  end.

(** Truthiness, as [if (o[k])] and [!o[k]] see it. *)
Definition truthy {A} (p : property A) : bool :=
  match p with
  | Undefined => false
  | Inherited n => negb (Nat.eqb n 0)
  | _ => true
  end.

(** [o[d] || 0] for an object whose own properties are counts and a key [d]
    that is a calendar date.  Such a key never names a built-in member; for
    a key that does ([__proto__], [constructor], ...) the expression yields
    the member, which is no count, and this definition does not apply: the
    statements about counts assume calendar dates. *)
Definition count_or_zero (own : gmap string nat) (proto : Proto) (d : string) : nat :=
  match own !! d with
  | Some n => n
  | None => default 0 (proto !! d)
  end.

(** *** [Array.prototype.sort]

    The sort is stable (ECMAScript 2019).  With a consistent comparator its
    result is determined: the elements in comparator order, equal ones in
    their original order.  [cmp a b <= 0] keeps [a] before [b]. *)

Section Sort.
Context {A : Type} (cmp : A → A → Z).

Fixpoint insert (x : A) (l : list A) : list A :=
  match l with
  | [] => [x]
  | y :: l' => if (cmp x y <=? 0)%Z then x :: y :: l' else y :: insert x l'
  end.

Definition sort (l : list A) : list A := foldr insert [] l.
End Sort.

(** The default comparator of [sort()]: strings by code unit. *)
Definition default_compare (a b : string) : Z :=
  match String.compare a b with
  | Lt => (-1)%Z
  | Eq => 0%Z
  | Gt => 1%Z
  end.

(** [\d] *)
Definition is_digit (c : ascii) : bool :=
  (48 <=? nat_of_ascii c)%nat && (nat_of_ascii c <=? 57)%nat.

(** An insertion-ordered [Set] of strings, as spread by [[...set]]. *)
Definition set_add (x : string) (s : list string) : list string :=
  if decide (x ∈ s) then s else s ++ [x].

(** An exception value: [err.code] and [err.message]. *)
Record error := mkError { code : option Z; message : string }.

Definition TypeError : error := mkError None "TypeError".

(** How an invocation ends: with a value, or with an exception that escapes
    the handler. *)
Inductive outcome (A : Type) : Type :=
| Returned (a : A)
| Threw (e : error).

Arguments Returned {A} a.
Arguments Threw {A} e.

End Js.

(** ** Documents *)

Module Student.
Record t := mk { uid : string; name : string; section : string; email : option string }.
End Student.

(** An attendance document as [stats.js] projects it. *)
Module Attendance.
Record t := mk { uid : string; date : string; section : string }.
End Attendance.

(** An attendance document as [submitAttendance.js] inserts it. *)
Module AttendanceRecord.
Record t := mk { uid : string; date : string; section : string; timestamp : string }.

(** The projection [{ _id: 0, uid: 1, date: 1, section: 1 }]. *)
Definition project (r : t) : Attendance.t := Attendance.mk (uid r) (date r) (section r).
End AttendanceRecord.

(** ** The document store

    A handler is a tree of store operations; each continuation receives what
    the awaited call resolved to, or the error it rejected with.  A handler
    that is a bare [Ret] touches the store not at all. *)

Module Db.

Import Js.

Inductive result (A : Type) : Type :=
| Ok (a : A)
| Failed (e : error).

Arguments Ok {A} a.
Arguments Failed {A} e.

Inductive prog (R : Type) : Type :=
| Ret (r : R)
| GetDb (k : result unit → prog R)
| FindStudents (k : result (list Student.t) → prog R)
| FindAttendance (k : result (list Attendance.t) → prog R)
| FindOneStudent (uid : string) (k : result (option Student.t) → prog R)
| CreateIndex (fields : list string) (unique : bool) (k : result unit → prog R)
| InsertOne (doc : AttendanceRecord.t) (k : result unit → prog R).

Arguments Ret {R} r.
Arguments GetDb {R} k.
Arguments FindStudents {R} k.
Arguments FindAttendance {R} k.
Arguments FindOneStudent {R} uid k.
Arguments CreateIndex {R} fields unique k.
Arguments InsertOne {R} doc k.

Record store := mkStore {
  students : list Student.t;
  attendance : list AttendanceRecord.t
}.

(** Error code of a duplicate key under the unique index on [{uid, date}]. *)
Definition DUPLICATE_KEY : Z := 11000.

Definition duplicate_key : error := mkError (Some DUPLICATE_KEY) "E11000 duplicate key error".

Definition same_key (a b : AttendanceRecord.t) : Prop :=
  AttendanceRecord.uid a = AttendanceRecord.uid b ∧
  AttendanceRecord.date a = AttendanceRecord.date b.

#[global] Instance same_key_dec a b : Decision (same_key a b).
Proof. unfold same_key. apply _. Defined.

(** [findOne({ uid })]: the first student with that uid. *)
Definition find_one (uid : string) (s : store) : option Student.t :=
  snd <$> list_find (λ st, Student.uid st = uid) (students s).

(** [insertOne] under the unique index: a document whose [(uid, date)] is
    taken is refused with code 11000, any other is appended. *)
Definition insert_one (doc : AttendanceRecord.t) (s : store) : result unit * store :=
  if decide (Exists (same_key doc) (attendance s)) then (Failed duplicate_key, s)
  else (Ok (), mkStore (students s) (attendance s ++ [doc])).

(** Running a handler against a store.  [faults] lists, operation by
    operation, the failure the store answers with instead of serving the
    call ([None]: it serves it); a failed call leaves the collections as they
    were. *)
Fixpoint run {R} (p : prog R) (faults : list (option error)) (s : store) : R * store :=
  let fault := mjoin (head faults) in
  let later := tail faults in
  match p with
  | Ret r => (r, s)
  | GetDb k =>
      run (k (from_option Failed (Ok ()) fault)) later s
  | FindStudents k =>
      run (k (from_option Failed (Ok (students s)) fault)) later s
  | FindAttendance k =>
      run (k (from_option Failed (Ok (AttendanceRecord.project <$> attendance s)) fault)) later s
  | FindOneStudent uid k =>
      run (k (from_option Failed (Ok (find_one uid s)) fault)) later s
  | CreateIndex _ _ k =>
      run (k (from_option Failed (Ok ()) fault)) later s
  | InsertOne doc k =>
      match fault with
      | Some e => run (k (Failed e)) later s
      | None => let '(r, s') := insert_one doc s in run (k r) later s'
      end
  end.

(** An awaited call outside any [try]: a rejection escapes the handler. *)
Definition await {A R} (k : A → prog (outcome R)) (r : result A) : prog (outcome R) :=
  match r with
  | Ok a => k a
  | Failed e => Ret (Threw e)
  end.

End Db.

(** ** HTTP responses *)

Module Http.
Inductive body (report : Type) : Type :=
| Text (s : string)                     (* a plain string *)
| Error (error : string)                (* JSON.stringify({ error }) *)
| Recorded (message date : string)      (* JSON.stringify({ message, date }) *)
| Json (r : report).                    (* JSON.stringify(report) *)

Arguments Text {report} s.
Arguments Error {report} error.
Arguments Recorded {report} message date.
Arguments Json {report} r.

Record response (report : Type) := mkResponse {
  statusCode : nat;
  headers : list (string * string);
  payload : body report
}.

Arguments mkResponse {report} statusCode headers payload.
Arguments statusCode {report} r.
Arguments headers {report} r.
Arguments payload {report} r.

Definition json_headers : list (string * string) := [("Content-Type", "application/json")].
End Http.

(** ** submitAttendance.js *)

Module Submit.

Import Js Db Http.

Record window := mkWindow { start : nat; end_ : nat }.

(** Strict time windows per section (Eastern Time, hour boundaries). *)
Definition WINDOWS : gmap string window :=
  {[ "0201" := mkWindow 12 13; "0202" := mkWindow 13 14; "0203" := mkWindow 14 15 ]}.

(** What [getEasternTimeParts(now)] yields; [hour] and [minute] are the
    two-digit fields as [parseInt(_, 10)] reads them. *)
Record parts := mkParts {
  weekday : string; year : string; month : string; day : string;
  hour : nat; minute : nat
}.

(** [new Date()]: its Eastern-time parts and its [toISOString()]. *)
Record clock := mkClock { eastern : parts; iso : string }.

(** [JSON.parse(event.body)]: a syntax error, [null], or a value whose [uid]
    and [section] are strings or missing. *)
Inductive json : Type :=
| InvalidJSON
| Null
| Fields (uid section : option string).

Record event := mkEvent { httpMethod : string; body : json }.

Definition respond (status : nat) (b : Http.body unit) : prog (outcome (response unit)) :=
  Ret (Returned (mkResponse status json_headers b)).

(** [!v] for a string or a missing field. *)
Definition falsy (v : option string) : bool :=
  match v with
  | None => true
  | Some s => String.eqb s ""
  end.

(** [/^\d+$/.test(uid)] *)
Definition numeric (uid : string) : bool :=
  negb (String.eqb uid "") && forallb is_digit (list_ascii_of_string uid).

(** [window.start * 60] and [window.end * 60]; on an inherited member the
    field is [undefined] and the product [NaN] ([None]). *)
Definition minutes (w : property window) (field : window → nat) : option nat :=
  match w with
  | Own w => Some (field w * 60)
  | _ => None
  end.

(** [`${window.start}`] *)
Definition show (w : property window) (field : window → nat) : string :=
  match w with
  | Own w => pretty (field w)
  | _ => "undefined"
  end.

(** [a < b] and [a >= b] with [b] possibly [NaN]: both false on [NaN]. *)
Definition lt (a : nat) (b : option nat) : bool := from_option (Nat.ltb a) false b.
Definition ge (a : nat) (b : option nat) : bool := from_option (λ b, Nat.leb b a) false b.

Definition outside_message (section : string) (w : property window) : string :=
  "Outside attendance window for section " +:+ section +:+ " (" +:+ show w start
    +:+ ":00–" +:+ show w end_ +:+ ":00 ET)".

(** Time validation (lines 69-92): [Some] is the rejection. *)
Definition time_check (DEV_BYPASS_TIME : option string) (p : parts)
    (section : string) (w : property window) : option (Http.body unit) :=
  if bool_decide (DEV_BYPASS_TIME ≠ Some "true") then
    if negb (String.eqb (weekday p) "Fri") then
      Some (Error "Attendance can only be submitted on Fridays")
    else
      let currentMinutes := hour p * 60 + minute p in
      let startMin := minutes w start in
      let endMin := minutes w end_ in
      if lt currentMinutes startMin || ge currentMinutes endMin then
        Some (Error (outside_message section w))
      else None
  else None.

(** The [catch] of the insert block. *)
Definition guarded {A} (k : A → prog (outcome (response unit))) (r : result A)
  : prog (outcome (response unit)) :=
  match r with
  | Ok a => k a
  | Failed err =>
      if bool_decide (code err = Some DUPLICATE_KEY) then
        respond 409 (Error "Attendance already submitted for today")
      else Ret (Threw err)
  end.

Definition handler (DEV_BYPASS_TIME : option string) (now : clock) (ev : event)
  : prog (outcome (response unit)) :=
  if negb (String.eqb (httpMethod ev) "POST") then respond 405 (Error "Method not allowed")
  else
    match body ev with
    | InvalidJSON => respond 400 (Error "Invalid JSON")
    | Null => Ret (Threw TypeError)
    | Fields uid section =>
        if falsy uid || falsy section then respond 400 (Error "Missing UID or section")
        else
          let uid := default "" uid in
          let section := default "" section in
          if negb (numeric uid) then respond 400 (Error "UID must be numeric")
          else
            let window := get WINDOWS ∅ section in
            if negb (truthy window) then respond 400 (Error "Invalid section")
            else
              let p := eastern now in
              let dateStr := year p +:+ "-" +:+ month p +:+ "-" +:+ day p in
              match time_check DEV_BYPASS_TIME p section window with
              | Some rejection => respond 400 rejection
              | None =>
                  GetDb (await (λ _,
                  FindOneStudent uid (await (λ student,
                  match student with
                  | None => respond 400 (Error "UID not found in roster")
                  | Some st =>
                      if negb (String.eqb (Student.section st) section) then
                        respond 400 (Error "Section does not match your registered section")
                      else
                        CreateIndex ["uid"; "date"] true (guarded (λ _,
                        CreateIndex ["date"; "section"] false (guarded (λ _,
                        InsertOne (AttendanceRecord.mk uid dateStr section (iso now)) (guarded (λ _,
                        respond 200 (Recorded "Attendance recorded successfully!" dateStr)))))))
                  end))))
              end
    end.

End Submit.

(** ** stats.js: the aggregation (lines 52-101 of the handler) *)

Module Stats.

Import Js.

Definition SECTIONS : list string := ["0201"; "0202"; "0203"].

Module Row.
Record t := mk { uid : string; name : string; email : string; absences : nat }.
End Row.

Module Detail.
(** [present] holds [{name, uid}], [absent] holds [{name, uid, email}]. *)
Record t := mk { present : list (string * string);
                 absent : list (string * string * string) }.
End Detail.

Record Report := mkReport {
  dates : list string;
  sections : list (string * list nat);
  rosterTotals : list (string * nat);
  studentsBySection : list (string * list Row.t);
  details : list (string * list (string * Detail.t))
}.

(** The template string [`${uid}|${date}`]. *)
Definition key (uid date : string) : string := uid +:+ "|" +:+ date.

Definition attendedSet (attendance : list Attendance.t) : gset string :=
  list_to_set ((λ a, key (Attendance.uid a) (Attendance.date a)) <$> attendance).

(** State of the counting loop: [dateSet], the own properties of
    [sectionData], and the process-wide [Object.prototype]. *)
Record counting := mkCounting {
  dateSet : list string;
  sectionData : gmap string (gmap string nat);
  proto : Proto
}.

Definition sectionData0 : gmap string (gmap string nat) :=
  {[ "0201" := ∅; "0202" := ∅; "0203" := ∅ ]}.

(** One round of the second [attendance.forEach], for a record whose date is
    a calendar date: the date is then an ordinary key of whatever object the
    section selects.  (A date that names an accessor or a read-only property
    of that object, [__proto__] or the [name] of a function, is written
    otherwise or not at all; the statements assume calendar dates.)
    Assigning a property to an inherited number throws in module (strict)
    code; the counts written on a built-in function object are never read
    back. *)
Definition count_record (st : counting) (a : Attendance.t) : outcome counting :=
  let ds := set_add (Attendance.date a) (dateSet st) in
  let sec := Attendance.section a in
  let d := Attendance.date a in
  match get (sectionData st) (proto st) sec with
  | Own o =>
      Returned (mkCounting ds
                  (<[sec := <[d := count_or_zero o (proto st) d + 1]> o]> (sectionData st))
                  (proto st))
  | ObjectPrototype =>
      Returned (mkCounting ds (sectionData st)
                  (<[d := default 0 (proto st !! d) + 1]> (proto st)))
  | BuiltinFunction => Returned (mkCounting ds (sectionData st) (proto st))
  | Inherited n =>
      if Nat.eqb n 0 then Returned (mkCounting ds (sectionData st) (proto st))
      else Threw TypeError
  | Undefined => Returned (mkCounting ds (sectionData st) (proto st))
  end.

(** The loop; an exception leaves the prototype as the rounds before it
    made it. *)
Fixpoint count_all (attendance : list Attendance.t) (st : counting)
  : outcome counting * Proto :=
  match attendance with
  | [] => (Returned st, proto st)
  | a :: rest =>
      match count_record st a with
      | Returned st' => count_all rest st'
      | Threw e => (Threw e, proto st)
      end
  end.

Definition in_section (sec : string) (students : list Student.t) : list Student.t :=
  filter (λ s, Student.section s = sec) students.

Definition absences_of (att : gset string) (dates : list string) (uid : string) : nat :=
  length (filter (λ d, key uid d ∉ att) dates).

Definition row_of (att : gset string) (dates : list string) (s : Student.t) : Row.t :=
  Row.mk (Student.uid s) (Student.name s) (default "" (Student.email s))
         (absences_of att dates (Student.uid s)).

(** [(a, b) => b.absences - a.absences] *)
Definition most_absences_first (a b : Row.t) : Z :=
  (Z.of_nat (Row.absences b) - Z.of_nat (Row.absences a))%Z.

Definition detail_of (att : gset string) (students : list Student.t)
    (date sec : string) : Detail.t :=
  let sectionStudents := in_section sec students in
  Detail.mk
    ((λ s, (Student.name s, Student.uid s))
       <$> filter (λ s, key (Student.uid s) date ∈ att) sectionStudents)
    ((λ s, (Student.name s, Student.uid s, default "" (Student.email s)))
       <$> filter (λ s, key (Student.uid s) date ∉ att) sectionStudents).

(** Everything after the two [find] calls.  The first component is the value
    the handler serialises (or the exception that escapes it), the second the
    prototype the process is left with.  [details] is taken to gain one own
    property per date, as it does when the dates are calendar dates (the
    key [__proto__] would set the prototype of [details] instead). *)
Definition aggregate (proto0 : Proto) (students : list Student.t)
    (attendance : list Attendance.t) : outcome Report * Proto :=
  let att := attendedSet attendance in
  match count_all attendance (mkCounting [] sectionData0 proto0) with
  | (Threw e, p) => (Threw e, p)
  | (Returned st, p) =>
      let dates := sort default_compare (dateSet st) in
      let sections :=
        (λ sec, (sec, (λ d, count_or_zero (default ∅ (sectionData st !! sec)) p d) <$> dates))
          <$> SECTIONS in
      let rosterTotals :=
        (λ sec, (sec, length (in_section sec students))) <$> SECTIONS in
      let studentsBySection :=
        (λ sec, (sec, sort most_absences_first (row_of att dates <$> in_section sec students)))
          <$> SECTIONS in
      let details :=
        (λ date, (date, (λ sec, (sec, detail_of att students date sec)) <$> SECTIONS))
          <$> dates in
      (Returned (mkReport dates sections rosterTotals studentsBySection details), p)
  end.

(** [o[code]] on the objects of the report. *)
Definition at_code {V} (code : string) (o : list (string * V)) : option V :=
  snd <$> List.find (λ kv, bool_decide (fst kv = code)) o.

(** *** The handler *)

Import Db Http.

Record event := mkEvent { authorization : option string }.

Record env := mkEnv { ADMIN_USER : option string; ADMIN_PASS : option string }.

Definition challenge : list (string * string) :=
  let quote := String (ascii_of_nat 34) "" in
  [("WWW-Authenticate", "Basic realm=" +:+ quote +:+ "TA Dashboard" +:+ quote)].

Definition unauthorized (text : string) : response Report :=
  mkResponse 401 challenge (Text text).

(** [s.split(":")] *)
Fixpoint split_colon (s : string) : list string :=
  match s with
  | EmptyString => [""]
  | String c s' =>
      if Ascii.eqb c ":" then "" :: split_colon s'
      else match split_colon s' with
           | [] => [String c ""]
           | h :: t => String c h :: t
           end
  end.

Section Handler.
(** [Buffer.from(_, "base64").toString()], a function of the platform. *)
Context (base64_decode : string → string).

(** The user and password of the [Authorization] header, when it is a
    [Basic] one. *)
Definition credentials (ev : event) : option (string * string) :=
  let authHeader := default "" (authorization ev) in
  if negb (String.prefix "Basic " authHeader) then None
  else
    let decoded := base64_decode (String.substring 6 (String.length authHeader - 6) authHeader) in
    let fields := split_colon decoded in
    Some (hd "" fields, String.concat ":" (tl fields)).

Definition handler (e : env) (proto0 : Proto) (ev : event)
  : prog (outcome (response Report) * Proto) :=
  match credentials ev with
  | None => Ret (Returned (unauthorized "Unauthorized"), proto0)
  | Some (user, pass) =>
      if bool_decide (Some user ≠ ADMIN_USER e ∨ Some pass ≠ ADMIN_PASS e) then
        Ret (Returned (unauthorized "Invalid credentials"), proto0)
      else
        let reject err := Ret (Threw err, proto0) in
        GetDb (λ db, match db with Failed err => reject err | Ok _ =>
        FindStudents (λ r, match r with Failed err => reject err | Ok students =>
        FindAttendance (λ r, match r with Failed err => reject err | Ok attendance =>
        match aggregate proto0 students attendance with
        | (Returned report, p) => Ret (Returned (mkResponse 200 json_headers (Json report)), p)
        | (Threw err, p) => Ret (Threw err, p)
        end end) end) end)
  end.
End Handler.

End Stats.

(** ** getDb: the cached client (both functions, lines 3-11)

    [cachedClient] is assigned before [connect()] is awaited, so a client
    whose connection failed stays cached. *)

Module Connection.

(** What the platform does to a call of [getDb] that finds no client. *)
Inductive attempt : Type :=
| ConstructorThrows      (* new MongoClient(uri) throws *)
| ConnectRejects         (* cachedClient.connect() rejects *)
| Connects.

(** The members of [MongoClient] a call reaches. *)
Inductive member : Type := Construct | Connect | GetDatabase.

#[global] Instance member_eq_dec : EqDecision member.
Proof. solve_decision. Defined.

Record call := mkCall {
  resolved : bool;            (* the promise resolves to a database handle *)
  reached : list member
}.

(** One call: [cachedClient] (is it non-null) before, the call, and
    [cachedClient] after.  [cachedClient.db()] neither connects nor fails. *)
Definition getDb (cachedClient : bool) (a : attempt) : call * bool :=
  if cachedClient then (mkCall true [GetDatabase], true)
  else
    match a with
    | ConstructorThrows => (mkCall false [Construct], false)
    | ConnectRejects => (mkCall false [Construct; Connect], true)
    | Connects => (mkCall true [Construct; Connect; GetDatabase], true)
    end.

(** The calls of a process, one after the other. *)
Fixpoint calls (cachedClient : bool) (attempts : list attempt) : list call :=
  match attempts with
  | [] => []
  | a :: rest => let '(c, cached) := getDb cachedClient a in c :: calls cached rest
  end.

End Connection.

(** ** Dashboard.jsx: what the dashboard computes from the report *)

Module Dashboard.

Import Stats.

(** [toggleSection]: the next set is a copy of the previous one with [sec]
    deleted if it was in, added if not.  The component reads the set with
    [has] only. *)
Definition toggleSection (sec : string) (prev : gset string) : gset string :=
  if decide (sec ∈ prev) then prev ∖ {[sec]} else prev ∪ {[sec]}.

(** [SECTIONS.filter((sec) => visibleSections.has(sec))] *)
Definition shown (visibleSections : gset string) : list string :=
  filter (λ sec, sec ∈ visibleSections) SECTIONS.

(** [(stats.studentsBySection?.[sec] || []).filter((s) => s.absences > 0)] *)
Definition sectionAbsentees (stats : Report) (sec : string) : list Row.t :=
  filter (λ s, 0 < Row.absences s) (default [] (at_code sec (studentsBySection stats))).

(** [Math.max(...SECTIONS.map((s) => stats.rosterTotals[s]))]; a missing
    total makes it [NaN] ([None]). *)
Definition maxStudents (stats : Report) : option nat :=
  max_list <$> mapM (λ s, at_code s (rosterTotals stats)) SECTIONS.

(** [scales.y.max] *)
Definition yMax (stats : Report) : option nat := (λ m, m + 2) <$> maxStudents stats.

(** The tooltip's [afterLabel] for a bar of dataset [datasetIndex] whose
    value is [raw]; [None] where the dataset or its total is missing (the
    label is then made of [NaN] and [undefined]). *)
Definition afterLabel (stats : Report) (datasetIndex raw : nat) : option string :=
  sec ← SECTIONS !! datasetIndex;
  total ← at_code sec (rosterTotals stats);
  Some ("Absent: " +:+ pretty (Z.of_nat total - Z.of_nat raw)%Z +:+ " / "
        +:+ pretty total +:+ " enrolled").

(** The bar that was clicked; a field is [None] where the index is out of
    range ([undefined]). *)
Record selection := mkSelection { date : option string; section : option string }.

#[global] Instance selection_eq_dec : EqDecision selection.
Proof. solve_decision. Defined.

(** [onClick]: [elements] are the [(index, datasetIndex)] under the
    pointer; [prev?.date] is [undefined] for no selection as for a selection
    without a date. *)
Definition onClick (stats : Report) (elements : list (nat * nat))
    (prev : option selection) : option selection :=
  match elements with
  | [] => prev
  | (index, datasetIndex) :: _ =>
      let date := dates stats !! index in
      let section := SECTIONS !! datasetIndex in
      if decide (prev ≫= Dashboard.date = date ∧ prev ≫= Dashboard.section = section)
      then None
      else Some (mkSelection date section)
  end.

(** [selected && stats.details?.[selected.date]?.[selected.section]]; no
    detail is keyed by [undefined]. *)
Definition detail (stats : Report) (selected : option selection) : option Detail.t :=
  sel ← selected;
  d ← Dashboard.date sel;
  sec ← Dashboard.section sel;
  per ← at_code d (details stats);
  at_code sec per.

(** The class of a row of the absence table. *)
Definition rowClass (absences : nat) : string :=
  if 3 <=? absences then "high-absence"
  else if 2 <=? absences then "med-absence"
  else "".

End Dashboard.

Import Stats.
Import Submit.

(** ** Vocabulary of the statements *)

(** The comparator keeps [a] before [b]. *)
Definition before {A} (cmp : A → A → Z) (a b : A) : Prop := (cmp a b <= 0)%Z.

(** The default comparator orders strings lexicographically. *)
Definition lex_lt (a b : string) : Prop := String.compare a b = Lt.

(** [dateSet] once every record has been visited. *)
Definition dateSet_from (s : list string) (attendance : list Attendance.t) : list string :=
  foldl (λ s a, Js.set_add (Attendance.date a) s) s attendance.

(** The global date list of a report. *)
Definition all_dates (attendance : list Attendance.t) : list string :=
  Js.sort Js.default_compare (dateSet_from [] attendance).

(** A date is the text [YYYY-MM-DD] that the submission handler builds from
    the Eastern-time parts.  On such dates the counting loop and [details]
    are as [count_record] and [aggregate] have them, and [key] tells
    identities and dates apart; the statements about counts, absences and
    details are made for them. *)
Definition iso_date (d : string) : bool :=
  match list_ascii_of_string d with
  | [y1; y2; y3; y4; s1; m1; m2; s2; d1; d2] =>
      forallb Js.is_digit [y1; y2; y3; y4; m1; m2; d1; d2]
      && Ascii.eqb s1 "-" && Ascii.eqb s2 "-"
  | _ => false
  end.


(** The prototype holds nothing but counts keyed by a date. *)
Definition dates_only (p : Js.Proto) : Prop :=
  ∀ k, is_Some (p !! k) → iso_date k.

(** No record files itself under [__proto__]. *)
Definition unpolluting (attendance : list Attendance.t) : Prop :=
  Forall (λ a, Attendance.section a ≠ "__proto__") attendance.

(** Some record carries this identity and date. *)
Definition recorded (attendance : list Attendance.t) (uid d : string) : Prop :=
  Exists (λ a, Attendance.uid a = uid ∧ Attendance.date a = d) attendance.

(** Number of records of a section on a date. *)
Definition count_of (attendance : list Attendance.t) (sec d : string) : nat :=
  length (filter (λ a, Attendance.section a = sec ∧ Attendance.date a = d) attendance).

(** [sectionData[sec][d] || 0] in a counting state. *)
Definition cnt (st : counting) (sec d : string) : nat :=
  Js.count_or_zero (default ∅ (sectionData st !! sec)) (proto st) d.

(** The ranked roster of a section, from the records alone. *)
Definition rows_of (students : list Student.t) (attendance : list Attendance.t)
    (sec : string) : list Row.t :=
  Js.sort most_absences_first
    (row_of (attendedSet attendance) (all_dates attendance) <$> in_section sec students).

(** The report as the specification words it (section 4.2): every count is
    the number of records of that section on that date.  It is the report of
    a process whose prototype is untouched ([aggregate_clean]). *)
Definition clean_report (students : list Student.t) (attendance : list Attendance.t)
  : Report :=
  mkReport (all_dates attendance)
    ((λ sec, (sec, count_of attendance sec <$> all_dates attendance)) <$> SECTIONS)
    ((λ sec, (sec, length (in_section sec students))) <$> SECTIONS)
    ((λ sec, (sec, rows_of students attendance sec)) <$> SECTIONS)
    ((λ date, (date, (λ sec, (sec, detail_of (attendedSet attendance) students date sec))
                       <$> SECTIONS)) <$> all_dates attendance).

(** The absences one more record on a new date brings: one for every
    identity but the record's own. *)
Definition one_more_absence (a : Attendance.t) (row : Row.t) : Row.t :=
  if decide (Row.uid row = Attendance.uid a) then row
  else Row.mk (Row.uid row) (Row.name row) (Row.email row) (S (Row.absences row)).

(** The request carries the configured user and password. *)
Definition authorized (base64_decode : string → string) (e : env) (ev : Stats.event) : Prop :=
  ∃ user pass, credentials base64_decode ev = Some (user, pass) ∧
    Some user = ADMIN_USER e ∧ Some pass = ADMIN_PASS e.

(** A submission that no check of the handler rejects: the request is
    well-formed, the time check lets it through, and the roster holds the
    identity under the submitted section. *)
Record accepted (bypass : option string) (now : clock) (uid section : string)
    (s : Db.store) : Prop := {
  accepted_uid : numeric uid = true;
  accepted_section : is_Some (WINDOWS !! section);
  accepted_time :
    time_check bypass (eastern now) section (Js.get WINDOWS ∅ section) = None;
  accepted_roster :
    ∃ st, Db.find_one uid s = Some st ∧ Student.section st = section
}.

(** The key of the unique index. *)
Definition index_key (r : AttendanceRecord.t) : string * string :=
  (AttendanceRecord.uid r, AttendanceRecord.date r).

(** The record carries the identity and the section of a roster student. *)
Definition belongs (students : list Student.t) (r : AttendanceRecord.t) : Prop :=
  ∃ st, st ∈ students ∧ Student.uid st = AttendanceRecord.uid r ∧
    Student.section st = AttendanceRecord.section r.

(** A store as the submission handler keeps it: no [(uid, date)] twice, and
    no record without its roster student. *)
Definition consistent (s : Db.store) : Prop :=
  NoDup (index_key <$> Db.attendance s) ∧ Forall (belongs (Db.students s)) (Db.attendance s).

(** One invocation of the submission handler: the bypass flag, the clock,
    the request, and what the store does to the operations. *)
Record submission := mkSubmission {
  sub_bypass : option string;
  sub_now : clock;
  sub_event : Submit.event;
  sub_faults : list (option Js.error)
}.

Definition submit (s : Db.store) (x : submission) : Db.store :=
  (Db.run (Submit.handler (sub_bypass x) (sub_now x) (sub_event x)) (sub_faults x) s).2.

(** The store after a series of invocations. *)
Definition replay (s : Db.store) (xs : list submission) : Db.store := foldl submit s xs.

(** [dateStr] of the handler. *)
Definition dateStr (now : clock) : string :=
  year (eastern now) +:+ "-" +:+ month (eastern now) +:+ "-" +:+ day (eastern now).

(** The student of the row is on the absent list of the date and section. *)
Definition listed_absent (r : Report) (code : string) (row : Row.t) (d : string) : bool :=
  from_option
    (λ det, bool_decide ((Row.name row, Row.uid row, Row.email row) ∈ Detail.absent det))
    false (at_code d (details r) ≫= at_code code).

(** * Lemmas *)

(** ** [Array.prototype.sort] *)

Section SortFacts.
Context {A : Type} (cmp : A → A → Z).

Lemma insert_perm x l : Js.insert cmp x l ≡ₚ x :: l.
Proof.
  induction l as [|y l IH]; simpl; [done|].
  destruct (cmp x y <=? 0)%Z; [done|].
  rewrite IH. apply perm_swap.
Qed.

Lemma sort_perm l : Js.sort cmp l ≡ₚ l.
Proof.
  induction l as [|x l IH]; [done|].
  change (Js.sort cmp (x :: l)) with (Js.insert cmp x (Js.sort cmp l)).
  by rewrite insert_perm, IH.
Qed.

Lemma elem_of_sort x l : x ∈ Js.sort cmp l ↔ x ∈ l.
Proof. by rewrite sort_perm. Qed.

Lemma length_sort l : length (Js.sort cmp l) = length l.
Proof. by rewrite sort_perm. Qed.



Context (cmp_total : ∀ a b, before cmp a b ∨ before cmp b a).
Context (cmp_trans : ∀ a b c, before cmp a b → before cmp b c → before cmp a c).

Lemma insert_sorted x l :
  StronglySorted (before cmp) l → StronglySorted (before cmp) (Js.insert cmp x l).
Proof.
  induction 1 as [|y l Hl IH Hy]; simpl.
  { repeat constructor. }
  destruct (cmp x y <=? 0)%Z eqn:Hc.
  - apply Z.leb_le in Hc. constructor; [by constructor|].
    constructor; [done|].
    eapply Forall_impl; [exact Hy|]. intros z Hz. by eapply cmp_trans.
  - apply Z.leb_gt in Hc. constructor; [done|].
    rewrite insert_perm. constructor; [|done].
    destruct (cmp_total x y) as [H|H]; [|done]. unfold before in H. lia.
Qed.

Lemma sort_sorted l : StronglySorted (before cmp) (Js.sort cmp l).
Proof.
  induction l as [|x l IH]; simpl; [constructor|]. by apply insert_sorted.
Qed.
End SortFacts.

Lemma StronglySorted_weaken {A} (R R' : A → A → Prop) l :
  (∀ a b, R a b → R' a b) → StronglySorted R l → StronglySorted R' l.
Proof.
  intros HR. induction 1 as [|x l Hl IH Hx]; constructor; [done|].
  eapply Forall_impl; [exact Hx|]. auto.
Qed.

Lemma before_default a b : before Js.default_compare a b ↔ a = b ∨ lex_lt a b.
Proof.
  unfold before, Js.default_compare, lex_lt.
  destruct (String.compare a b) eqn:Hc.
  - apply String.compare_eq_iff in Hc. split; [auto|lia].
  - split; [auto|lia].
  - split; [lia|]. intros [->|?]; [|done].
    assert (String.le b b) as Hb by done.
    unfold String.le, String.leb in Hb. by rewrite Hc in Hb.
Qed.

Lemma before_default_le a b : before Js.default_compare a b ↔ String.le a b.
Proof.
  unfold before, Js.default_compare, String.le, String.leb.
  destruct (String.compare a b); simpl; split; (lia || done).
Qed.

Lemma sort_default_sorted l :
  NoDup l → StronglySorted lex_lt (Js.sort Js.default_compare l).
Proof.
  intros Hnd.
  assert (StronglySorted (before Js.default_compare) (Js.sort Js.default_compare l)) as Hs.
  { apply sort_sorted.
    - intros a b. rewrite !before_default_le. apply total, _.
    - intros a b c. rewrite !before_default_le. apply transitivity. }
  assert (NoDup (Js.sort Js.default_compare l)) as Hnd'.
  { by rewrite sort_perm. }
  induction Hs as [|x l' Hs IH Hx]; [constructor|].
  apply NoDup_cons in Hnd' as [Hnx Hnd'].
  constructor; [by apply IH|].
  apply Forall_forall. intros y Hy.
  rewrite Forall_forall in Hx.
  destruct (proj1 (before_default x y) (Hx y Hy)) as [->|]; [done|done].
Qed.

(** ** The insertion-ordered set of dates *)

Lemma elem_of_set_add x y s : x ∈ Js.set_add y s ↔ x = y ∨ x ∈ s.
Proof.
  unfold Js.set_add. destruct (decide (y ∈ s)).
  - split; [auto|]. by intros [->|].
  - rewrite elem_of_app, list_elem_of_singleton. tauto.
Qed.

Lemma NoDup_set_add y s : NoDup s → NoDup (Js.set_add y s).
Proof.
  intros Hs. unfold Js.set_add. destruct (decide (y ∈ s)); [done|].
  apply NoDup_app. split_and!; [done| |apply NoDup_singleton].
  intros x Hx ->%list_elem_of_singleton. done.
Qed.

Lemma elem_of_dateSet_from d s attendance :
  d ∈ dateSet_from s attendance ↔ d ∈ s ∨ ∃ a, a ∈ attendance ∧ Attendance.date a = d.
Proof.
  revert s. induction attendance as [|a att IH]; intros s; simpl.
  - split; [auto|]. intros [|(a & Ha & _)]; [done|]. by apply elem_of_nil in Ha.
  - rewrite IH, elem_of_set_add. split.
    + intros [[->|]|(a' & Ha' & Hd)]; [right; exists a|by left|right; exists a'];
        rewrite ?elem_of_cons; auto.
    + intros [|(a' & [->|Ha']%elem_of_cons & Hd)]; [by auto|by auto|].
      right. by exists a'.
Qed.

Lemma NoDup_dateSet_from s attendance : NoDup s → NoDup (dateSet_from s attendance).
Proof.
  revert s. induction attendance as [|a att IH]; intros s Hs; simpl; [done|].
  by apply IH, NoDup_set_add.
Qed.

Lemma elem_of_all_dates d attendance :
  d ∈ all_dates attendance ↔ ∃ a, a ∈ attendance ∧ Attendance.date a = d.
Proof.
  unfold all_dates. rewrite elem_of_sort, elem_of_dateSet_from.
  split; [|auto]. intros [H|]; [|done]. by apply elem_of_nil in H.
Qed.

Lemma all_dates_sorted attendance : StronglySorted lex_lt (all_dates attendance).
Proof. apply sort_default_sorted, NoDup_dateSet_from, NoDup_nil_2. Qed.

Lemma all_dates_NoDup attendance : NoDup (all_dates attendance).
Proof. unfold all_dates. rewrite sort_perm. apply NoDup_dateSet_from, NoDup_nil_2. Qed.

Lemma dates_only_empty : dates_only ∅.
Proof. intros k [n Hn]. by rewrite lookup_empty in Hn. Qed.

Lemma string_length_app s1 s2 :
  String.length (s1 +:+ s2) = String.length s1 + String.length s2.
Proof.
  induction s1 as [|c s1 IH]; [done|].
  change (String c s1 +:+ s2) with (String c (s1 +:+ s2)). simpl. by rewrite IH.
Qed.

Lemma string_length_list s : String.length s = length (list_ascii_of_string s).
Proof. induction s as [|c s IH]; [done|]. cbn. by rewrite IH. Qed.

Lemma iso_date_length d : iso_date d → String.length d = 10.
Proof.
  unfold iso_date. rewrite string_length_list.
  destruct (list_ascii_of_string d) as [|? l]; [done|].
  do 9 (destruct l as [|? l]; [done|]).
  by destruct l.
Qed.

(** The key [`${uid}|${date}`] determines both of its parts once the dates
    have one length. *)
Lemma key_inj u1 d1 u2 d2 :
  String.length d1 = String.length d2 →
  key u1 d1 = key u2 d2 → u1 = u2 ∧ d1 = d2.
Proof.
  unfold key. intros Hlen Heq.
  assert (String.length u1 = String.length u2) as Hu.
  { apply (f_equal String.length) in Heq.
    rewrite !string_length_app in Heq. lia. }
  revert u2 Heq Hu. induction u1 as [|c u1 IH]; intros [|c' u2] Heq Hu;
    try discriminate.
  - cbn in Heq. by simplify_eq.
  - cbn in Heq, Hu. simplify_eq. destruct (IH u2) as [-> ->]; auto.
Qed.

Lemma elem_of_attendedSet attendance u d :
  Forall (λ a, iso_date (Attendance.date a)) attendance → iso_date d →
  key u d ∈ attendedSet attendance ↔ recorded attendance u d.
Proof.
  intros Hiso Hd. unfold attendedSet, recorded.
  rewrite elem_of_list_to_set, list_elem_of_fmap, Exists_exists.
  rewrite Forall_forall in Hiso.
  split.
  - intros (a & Hk & Ha). exists a. split; [done|].
    symmetry in Hk. apply key_inj in Hk; [done|].
    rewrite !iso_date_length; auto.
  - intros (a & Ha & <- & <-). by exists a.
Qed.

Lemma absences_of_recorded attendance ds u :
  Forall (λ a, iso_date (Attendance.date a)) attendance →
  Forall (λ d, iso_date d) ds →
  absences_of (attendedSet attendance) ds u
  = length (filter (λ d, ¬ recorded attendance u d) ds).
Proof.
  intros Hiso Hds. unfold absences_of. f_equal.
  induction Hds as [|d ds Hd Hds IH]; [done|].
  rewrite !filter_cons, IH.
  destruct (decide (key u d ∉ _)) as [H|H], (decide (¬ recorded attendance u d)) as [H'|H'];
    try done; rewrite elem_of_attendedSet in H by done; tauto.
Qed.

Lemma all_dates_iso attendance :
  Forall (λ a, iso_date (Attendance.date a)) attendance →
  Forall (λ d, iso_date d) (all_dates attendance).
Proof.
  intros Hiso. apply Forall_forall. intros d (a & Ha & <-)%elem_of_all_dates.
  rewrite Forall_forall in Hiso. auto.
Qed.

(** ** The counting loop *)

Lemma count_or_zero_insert o p d d' n :
  Js.count_or_zero (<[d := n]> o) p d' = if decide (d = d') then n else Js.count_or_zero o p d'.
Proof.
  unfold Js.count_or_zero. rewrite lookup_insert.
  by destruct (decide (d = d')).
Qed.

(** A round on a record that does not file itself under [__proto__], in a
    process whose prototype is untouched. *)
Lemma count_record_clean st a :
  proto st = ∅ → Attendance.section a ≠ "__proto__" →
  ∃ st', count_record st a = Js.Returned st' ∧ proto st' = ∅ ∧
    dateSet st' = Js.set_add (Attendance.date a) (dateSet st) ∧
    dom (sectionData st') = dom (sectionData st) ∧
    ∀ sec d, sec ∈ dom (sectionData st) →
      cnt st' sec d
      = cnt st sec d
        + (if decide (Attendance.section a = sec ∧ Attendance.date a = d) then 1 else 0).
Proof.
  intros Hp Hsec. unfold count_record, Js.get. rewrite Hp.
  destruct (sectionData st !! Attendance.section a) as [o|] eqn:Ho.
  - eexists. split; [done|]. split_and!; simpl; [done..| |].
    + rewrite dom_insert_L. apply elem_of_dom_2 in Ho.
      by apply subseteq_union_1_L, singleton_subseteq_l.
    + intros sec d _. unfold cnt; simpl. rewrite Hp, lookup_insert.
      destruct (decide (Attendance.section a = sec)) as [<-|Hne]; simpl.
      * rewrite Ho; simpl. rewrite count_or_zero_insert.
        destruct (decide (Attendance.date a = d)) as [<-|Hd].
        -- rewrite decide_True by done. done.
        -- rewrite decide_False by tauto. lia.
      * rewrite decide_False by tauto. lia.
  - rewrite decide_False by done.
    assert (∀ st0 : counting,
      st0 = mkCounting (Js.set_add (Attendance.date a) (dateSet st)) (sectionData st) ∅ →
      proto st0 = ∅ ∧ dateSet st0 = Js.set_add (Attendance.date a) (dateSet st) ∧
      dom (sectionData st0) = dom (sectionData st) ∧
      ∀ sec d, sec ∈ dom (sectionData st) →
        cnt st0 sec d
        = cnt st sec d
          + (if decide (Attendance.section a = sec ∧ Attendance.date a = d) then 1 else 0))
      as Hsame.
    { intros st0 ->. split_and!; simpl; [done..|].
      intros sec d Hin. unfold cnt; simpl. rewrite Hp.
      rewrite decide_False; [lia|]. intros [<- _].
      apply elem_of_dom in Hin as [? Hin]. congruence. }
    destruct (decide (Attendance.section a ∈ Js.prototype_functions)).
    + eexists. split; [done|]. by apply Hsame.
    + rewrite lookup_empty. eexists. split; [done|]. by apply Hsame.
Qed.

Lemma count_of_cons a attendance sec d :
  count_of (a :: attendance) sec d
  = (if decide (Attendance.section a = sec ∧ Attendance.date a = d) then 1 else 0)
    + count_of attendance sec d.
Proof.
  unfold count_of. rewrite filter_cons.
  by destruct (decide (Attendance.section a = sec ∧ Attendance.date a = d)).
Qed.

Lemma count_all_clean attendance st :
  proto st = ∅ → unpolluting attendance →
  ∃ st', count_all attendance st = (Js.Returned st', ∅) ∧ proto st' = ∅ ∧
    dateSet st' = dateSet_from (dateSet st) attendance ∧
    ∀ sec d, sec ∈ dom (sectionData st) →
      cnt st' sec d = cnt st sec d + count_of attendance sec d.
Proof.
  intros Hp Hatt. revert st Hp.
  induction Hatt as [|a att Ha Hatt IH]; intros st Hp; simpl.
  - exists st. rewrite Hp. split_and!; [done..|].
    intros sec d _. unfold count_of. simpl. lia.
  - destruct (count_record_clean st a Hp Ha) as (st1 & -> & Hp1 & Hds1 & Hdom1 & Hcnt1).
    destruct (IH st1 Hp1) as (st' & -> & Hp' & Hds' & Hcnt').
    exists st'. split_and!; [done..| |].
    + by rewrite Hds', Hds1.
    + intros sec d Hin. rewrite Hcnt' by (by rewrite Hdom1).
      rewrite Hcnt1 by done. rewrite count_of_cons. lia.
Qed.



(** Whenever the loop completes, [dateSet] holds the dates of all records. *)
Lemma count_record_dateSet st a st' :
  count_record st a = Js.Returned st' →
  dateSet st' = Js.set_add (Attendance.date a) (dateSet st).
Proof.
  unfold count_record.
  destruct (Js.get _ _ _) as [o| | |n|]; try (by intros [= <-]).
  destruct (Nat.eqb n 0); [by intros [= <-]|done].
Qed.

Lemma count_all_dateSet attendance st st' p :
  count_all attendance st = (Js.Returned st', p) →
  dateSet st' = dateSet_from (dateSet st) attendance.
Proof.
  revert st. induction attendance as [|a att IH]; intros st; simpl.
  - by intros [= <- _].
  - destruct (count_record st a) as [st1|e] eqn:H1; [|done].
    intros Hrest. rewrite (IH _ Hrest). by rewrite (count_record_dateSet _ _ _ H1).
Qed.

(** ** The report *)

Lemma cnt_initial p sec d :
  sec ∈ SECTIONS → cnt (mkCounting [] sectionData0 p) sec d = default 0 (p !! d).
Proof.
  unfold SECTIONS. rewrite !elem_of_cons, elem_of_nil.
  intros [->|[->|[->|[]]]]; reflexivity.
Qed.

Lemma SECTIONS_own sec : sec ∈ SECTIONS → sec ∈ dom sectionData0.
Proof.
  unfold SECTIONS. rewrite !elem_of_cons, elem_of_nil.
  intros [->|[->|[->|[]]]]; apply elem_of_dom; eexists; reflexivity.
Qed.

Lemma aggregate_clean students attendance :
  unpolluting attendance →
  aggregate ∅ students attendance = (Js.Returned (clean_report students attendance), ∅).
Proof.
  intros Hatt. unfold aggregate.
  destruct (count_all_clean attendance (mkCounting [] sectionData0 ∅))
    as (st & -> & Hp & Hds & Hcnt); [done..|].
  simpl in Hds. unfold clean_report, rows_of, all_dates. rewrite <- Hds.
  do 3 f_equal.
  apply Forall_fmap_ext_1, Forall_forall. intros sec Hsec. f_equal.
  apply list_fmap_ext. intros _ d _.
  specialize (Hcnt sec d (SECTIONS_own sec Hsec)).
  rewrite cnt_initial, lookup_empty in Hcnt by done.
  unfold cnt in Hcnt. by rewrite Hp in Hcnt.
Qed.

Lemma aggregate_returned p0 students attendance r p :
  aggregate p0 students attendance = (Js.Returned r, p) →
  dates r = all_dates attendance ∧
  rosterTotals r = (λ sec, (sec, length (in_section sec students))) <$> SECTIONS ∧
  studentsBySection r = (λ sec, (sec, rows_of students attendance sec)) <$> SECTIONS.
Proof.
  unfold aggregate.
  destruct (count_all attendance _) as [[st|e] p'] eqn:Hloop; [|done].
  apply count_all_dateSet in Hloop. simpl in Hloop.
  intros [= <- _]. simpl. unfold rows_of, all_dates. by rewrite Hloop.
Qed.


Lemma at_code_fmap {V} (f : string → V) code codes :
  code ∈ codes → at_code code ((λ sec, (sec, f sec)) <$> codes) = Some (f code).
Proof.
  unfold at_code. induction codes as [|c codes IH]; intros Hin.
  { by apply elem_of_nil in Hin. }
  simpl. destruct (decide (c = code)) as [->|Hne].
  - by rewrite bool_decide_eq_true_2.
  - rewrite bool_decide_eq_false_2 by done. apply IH.
    apply elem_of_cons in Hin as [->|]; done.
Qed.

Lemma before_most_absences a b :
  before most_absences_first a b ↔ (Row.absences b ≤ Row.absences a)%nat.
Proof. unfold before, most_absences_first. lia. Qed.

Lemma row_of_recorded attendance s :
  Forall (λ a, iso_date (Attendance.date a)) attendance →
  row_of (attendedSet attendance) (all_dates attendance) s
  = Row.mk (Student.uid s) (Student.name s) (default "" (Student.email s))
      (length (filter (λ d, ¬ recorded attendance (Student.uid s) d) (all_dates attendance))).
Proof.
  intros Hiso. unfold row_of. f_equal.
  apply absences_of_recorded; [done|]. by apply all_dates_iso.
Qed.

(** * stats.js: the report *)




(** The ranking of that roster: Bob and Di missed both dates and stand in
    roster order, Cy missed one, Ada none. *)
Example ranking_of_four :
  let students := [Student.mk "1" "Ada" "0201" None; Student.mk "2" "Bob" "0201" None;
                   Student.mk "3" "Cy" "0201" None; Student.mk "4" "Di" "0201" None] in
  let attendance := [Attendance.mk "1" "2026-02-13" "0201"; Attendance.mk "3" "2026-02-06" "0201";
                     Attendance.mk "1" "2026-02-06" "0201"] in
  ∃ r, aggregate ∅ students attendance = (Js.Returned r, ∅) ∧
    dates r = ["2026-02-06"; "2026-02-13"] ∧
    at_code "0201" (studentsBySection r)
    = Some [Row.mk "2" "Bob" "" 2; Row.mk "4" "Di" "" 2; Row.mk "3" "Cy" "" 1;
            Row.mk "1" "Ada" "" 0].
Proof. eexists. split; [vm_compute; reflexivity|]. split; reflexivity. Qed.

(** The dates of a report are the distinct dates of the records in ascending
    lexicographic order, whatever the sections of the records are. *)
Lemma dates_sorted_distinct p0 students attendance r p :
  aggregate p0 students attendance = (Js.Returned r, p) →
  StronglySorted lex_lt (dates r) ∧ NoDup (dates r) ∧
  ∀ d, d ∈ dates r ↔ ∃ a, a ∈ attendance ∧ Attendance.date a = d.
Proof.
  intros (-> & _)%aggregate_returned. split_and!.
  - apply all_dates_sorted.
  - apply all_dates_NoDup.
  - intros d. apply elem_of_all_dates.
Qed.

(** In a process whose prototype is untouched, and on records whose dates
    are calendar dates and none of which files itself under [__proto__], the
    counts are aligned with the dates and each one is the number of records
    of the section on the date. *)
Lemma sections_counted students attendance code :
  Forall (λ a, iso_date (Attendance.date a)) attendance →
  unpolluting attendance → code ∈ SECTIONS →
  ∃ r, aggregate ∅ students attendance = (Js.Returned r, ∅) ∧
    at_code code (sections r) = Some (count_of attendance code <$> dates r) ∧
    at_code code (rosterTotals r)
    = Some (length (filter (λ s, Student.section s = code) students)).
Proof.
  intros _ Hatt Hcode. exists (clean_report students attendance).
  split; [by apply aggregate_clean|].
  split.
  - by apply (at_code_fmap (λ sec, count_of attendance sec <$> all_dates attendance)).
  - by apply (at_code_fmap (λ sec, length (in_section sec students))).
Qed.

(** C6: a record filed under [__proto__] is counted in every configured
    section.  One record, of no configured section, and yet
    [sections["0201"]] is [[1]]: the count of records of section 0201 on the
    date is 0. *)
Theorem sections_count_inherited :
  let attendance := [Attendance.mk "1" "2026-02-06" "__proto__"] in
  ∃ r p,
    aggregate ∅ [] attendance = (Js.Returned r, p) ∧
    dates r = ["2026-02-06"] ∧
    at_code "0201" (sections r) = Some [1] ∧
    count_of attendance "0201" "2026-02-06" = 0.
Proof. vm_compute. eexists _, _. repeat split. Qed.

(** C8: the same collections, aggregated twice by one process, give two
    different reports once a record is filed under [__proto__]: the count the
    first invocation wrote on the prototype is still there for the second. *)
Theorem aggregate_not_repeatable :
  let attendance := [Attendance.mk "1" "2026-02-06" "__proto__"] in
  ∃ r1 p1 r2 p2,
    aggregate ∅ [] attendance = (Js.Returned r1, p1) ∧
    aggregate p1 [] attendance = (Js.Returned r2, p2) ∧
    at_code "0201" (sections r1) = Some [1] ∧
    at_code "0201" (sections r2) = Some [2] ∧
    r1 ≠ r2.
Proof.
  vm_compute. eexists _, _, _, _. split; [reflexivity|]. split; [reflexivity|].
  repeat split. intros H. discriminate H.
Qed.

(** Without such a record an invocation leaves the prototype as it found
    it, so the next invocation of the process starts where this one did. *)
Lemma count_all_keeps_prototype attendance st :
  unpolluting attendance → (count_all attendance st).2 = proto st.
Proof.
  intros Hatt. revert st. induction Hatt as [|a att Ha Hatt IH]; intros st; [done|].
  simpl. unfold count_record, Js.get.
  destruct (sectionData st !! Attendance.section a) as [o|]; [by rewrite IH|].
  rewrite decide_False by done.
  destruct (decide (Attendance.section a ∈ Js.prototype_functions)); [by rewrite IH|].
  destruct (proto st !! Attendance.section a) as [m|]; [|by rewrite IH].
  destruct (Nat.eqb m 0); [by rewrite IH|done].
Qed.

(** When no record files itself under [__proto__], an invocation of the
    aggregation hands the prototype on exactly as it received it, whether it
    returns a report or throws. *)
Lemma aggregate_keeps_prototype p0 students attendance :
  unpolluting attendance → (aggregate p0 students attendance).2 = p0.
Proof.
  intros Hatt. unfold aggregate.
  pose proof (count_all_keeps_prototype attendance (mkCounting [] sectionData0 p0) Hatt) as Hp.
  destruct (count_all attendance _) as [[st|e] p]; simpl in *; by subst.
Qed.

(** ** Counting *)

Lemma NoDup_fmap_elem_inj {A B} (f : A → B) (l : list A) x y :
  NoDup (f <$> l) → x ∈ l → y ∈ l → f x = f y → x = y.
Proof.
  induction l as [|z l IH]; intros Hnd Hx Hy Hf.
  { by apply elem_of_nil in Hx. }
  rewrite fmap_cons in Hnd. apply NoDup_cons in Hnd as [Hz Hnd].
  apply elem_of_cons in Hx as [->|Hx], Hy as [->|Hy]; [done| | |by apply IH].
  - destruct Hz. rewrite Hf. by apply list_elem_of_fmap_2.
  - destruct Hz. rewrite <- Hf. by apply list_elem_of_fmap_2.
Qed.

Lemma sum_list_fmap_bound {A} (f : A → nat) (n : nat) (l : list A) :
  (∀ x, x ∈ l → f x ≤ n)%nat → (sum_list (f <$> l) ≤ n * length l)%nat.
Proof.
  induction l as [|x l IH]; intros Hf; csimpl; [lia|].
  assert (f x ≤ n)%nat by (apply Hf; left).
  assert (sum_list (f <$> l) ≤ n * length l)%nat by (apply IH; intros; apply Hf; by right).
  rewrite Nat.mul_succ_r. lia.
Qed.

Lemma length_filter_not {A} (P : A → Prop) `{!∀ x, Decision (P x)} (l : list A) :
  length (filter (λ x, ¬ P x) l) = (length l - length (filter P l))%nat.
Proof.
  induction l as [|x l IH]; [done|].
  rewrite !filter_cons. pose proof (length_filter P l).
  destruct (decide (P x)), (decide (¬ P x)); simpl; try tauto; lia.
Qed.

(** On one date a section has at most as many records as it has students,
    when its records belong to its students and no identity is recorded twice
    on a date. *)
Lemma count_of_bounded students attendance code d :
  NoDup ((λ a, (Attendance.uid a, Attendance.date a)) <$> attendance) →
  (∀ a, a ∈ attendance → Attendance.section a = code →
     ∃ s, s ∈ students ∧ Student.uid s = Attendance.uid a ∧ Student.section s = code) →
  (count_of attendance code d ≤ length (in_section code students))%nat.
Proof.
  intros Hnd Hroster. unfold count_of.
  set (here := filter (λ a, Attendance.section a = code ∧ Attendance.date a = d) attendance).
  rewrite <- (length_fmap Attendance.uid here), <- (length_fmap Student.uid (in_section code students)).
  apply submseteq_length, NoDup_submseteq.
  - apply NoDup_fmap_2_strong.
    + intros a b [[_ Ha] Hina]%list_elem_of_filter [[_ Hb] Hinb]%list_elem_of_filter Hu.
      eapply (NoDup_fmap_elem_inj _ attendance); [exact Hnd|done..|].
      simpl. congruence.
    + apply NoDup_filter. by apply NoDup_fmap_1 in Hnd.
  - intros u (a & -> & [[Hsec _] Hin]%list_elem_of_filter)%list_elem_of_fmap.
    destruct (Hroster a Hin Hsec) as (s & Hs & <- & Hss).
    apply list_elem_of_fmap_2. unfold in_section. by apply list_elem_of_filter.
Qed.

Lemma elem_of_rows_of students attendance code row :
  row ∈ rows_of students attendance code →
  ∃ s, s ∈ students ∧ Student.section s = code ∧
    row = row_of (attendedSet attendance) (all_dates attendance) s.
Proof.
  unfold rows_of. rewrite elem_of_sort, list_elem_of_fmap.
  intros (s & -> & [Hsec Hin]%list_elem_of_filter). by exists s.
Qed.

Lemma clean_sections students attendance code :
  code ∈ SECTIONS →
  at_code code (sections (clean_report students attendance))
  = Some (count_of attendance code <$> all_dates attendance).
Proof.
  intros. by apply (at_code_fmap (λ sec, count_of attendance sec <$> all_dates attendance)).
Qed.

Lemma clean_rows students attendance code :
  code ∈ SECTIONS →
  at_code code (studentsBySection (clean_report students attendance))
  = Some (rows_of students attendance code).
Proof. intros. by apply (at_code_fmap (rows_of students attendance)). Qed.

Lemma at_code_configured {V} (f : string → V) code v :
  at_code code ((λ sec, (sec, f sec)) <$> SECTIONS) = Some v → code ∈ SECTIONS.
Proof.
  unfold at_code. destruct (List.find _ _) as [[c w]|] eqn:Hfind; [|done].
  intros _. apply find_some in Hfind as [Hin Hc].
  apply bool_decide_eq_true in Hc. simpl in Hc. subst c.
  by apply list_elem_of_In, list_elem_of_fmap in Hin as (sec & [= -> _] & Hsec).
Qed.

(** C1, counterexample: one record of section 0201 whose identity is on no
    roster.  The present-counts of the section sum to 1, the roster total
    times the number of dates is 0. *)
Lemma present_sum_exceeds_roster :
  let attendance := [Attendance.mk "9" "2026-02-06" "0201"] in
  ∃ r p counts total,
    aggregate ∅ [] attendance = (Js.Returned r, p) ∧
    at_code "0201" (sections r) = Some counts ∧
    at_code "0201" (rosterTotals r) = Some total ∧
    ¬ (sum_list counts ≤ total * length (dates r))%nat.
Proof.
  vm_compute. eexists _, _, _, _. do 3 (split; [reflexivity|]).
  intros H. by apply Nat.nle_succ_0 in H.
Qed.

(** C1, amended: dates being calendar dates, every student a report lists
    has as absences the number of dates minus the number of dates attended;
    and when every record of the section carries the identity of a roster
    student of that section and no identity is recorded twice on a date (no
    record being filed under [__proto__], the prototype untouched), the
    present-counts of the section sum to at most its roster total times the
    number of dates. *)
Theorem present_sum_bounded students attendance code :
  Forall (λ a, iso_date (Attendance.date a)) attendance →
  code ∈ SECTIONS →
  (∀ p0 r p rows,
     aggregate p0 students attendance = (Js.Returned r, p) →
     at_code code (studentsBySection r) = Some rows →
     ∀ row, row ∈ rows →
       Row.absences row
       = length (dates r)
         - length (filter (λ d, recorded attendance (Row.uid row) d) (dates r))) ∧
  (unpolluting attendance →
   NoDup ((λ a, (Attendance.uid a, Attendance.date a)) <$> attendance) →
   (∀ a, a ∈ attendance → Attendance.section a = code →
      ∃ s, s ∈ students ∧ Student.uid s = Attendance.uid a ∧ Student.section s = code) →
   ∃ r counts total,
     aggregate ∅ students attendance = (Js.Returned r, ∅) ∧
     at_code code (sections r) = Some counts ∧
     at_code code (rosterTotals r) = Some total ∧
     sum_list counts ≤ total * length (dates r)).
Proof.
  intros Hiso Hcode. split.
  - intros p0 r p rows (Hdates & _ & Hrows)%aggregate_returned Hat row Hrow.
    rewrite Hrows, (at_code_fmap (rows_of students attendance)) in Hat by done.
    injection Hat as <-. apply elem_of_rows_of in Hrow as (s & _ & _ & ->).
    rewrite row_of_recorded, Hdates by done. cbn [Row.absences Row.uid].
    apply length_filter_not.
  - intros Hatt Hnd Hroster.
    exists (clean_report students attendance),
      (count_of attendance code <$> all_dates attendance),
      (length (in_section code students)).
    split; [by apply aggregate_clean|].
    split; [by apply clean_sections|].
    split; [by apply (at_code_fmap (λ sec, length (in_section sec students)))|].
    apply sum_list_fmap_bound. intros d _. by apply count_of_bounded.
Qed.

Lemma present_sum_bounded_witness :
  let students := [Student.mk "1" "Ada" "0201" None; Student.mk "2" "Bob" "0201" None] in
  let attendance := [Attendance.mk "1" "2026-02-06" "0201"] in
  (∀ p0 r p rows,
     aggregate p0 students attendance = (Js.Returned r, p) →
     at_code "0201" (studentsBySection r) = Some rows →
     ∀ row, row ∈ rows →
       Row.absences row
       = length (dates r)
         - length (filter (λ d, recorded attendance (Row.uid row) d) (dates r))) ∧
  ∃ r counts total,
    aggregate ∅ students attendance = (Js.Returned r, ∅) ∧
    at_code "0201" (sections r) = Some counts ∧
    at_code "0201" (rosterTotals r) = Some total ∧
    sum_list counts ≤ total * length (dates r).
Proof.
  destruct (present_sum_bounded
              [Student.mk "1" "Ada" "0201" None; Student.mk "2" "Bob" "0201" None]
              [Attendance.mk "1" "2026-02-06" "0201"] "0201") as [Habs Hsum].
  - by apply Forall_singleton.
  - by left.
  - split; [exact Habs|]. apply Hsum.
    + by apply Forall_singleton.
    + apply NoDup_singleton.
    + intros a Ha _. exists (Student.mk "1" "Ada" "0201" None).
      apply list_elem_of_singleton in Ha as ->. split; [by left|done].
Defined.

(** ** One record more *)

Lemma count_of_insert before a after sec d :
  count_of (before ++ a :: after) sec d
  = (count_of (before ++ after) sec d
     + (if decide (Attendance.section a = sec ∧ Attendance.date a = d) then 1 else 0))%nat.
Proof.
  unfold count_of. rewrite !filter_app, filter_cons, !length_app.
  destruct (decide (Attendance.section a = sec ∧ Attendance.date a = d)); simpl; lia.
Qed.

Lemma recorded_insert before a after u d :
  recorded (before ++ a :: after) u d
  ↔ recorded (before ++ after) u d ∨ (Attendance.uid a = u ∧ Attendance.date a = d).
Proof. unfold recorded. rewrite !Exists_app, Exists_cons. tauto. Qed.

Lemma filter_ext_elem_of {A} (P Q : A → Prop)
    `{!∀ x, Decision (P x), !∀ x, Decision (Q x)} (l : list A) :
  (∀ x, x ∈ l → P x ↔ Q x) → filter P l = filter Q l.
Proof.
  induction l as [|x l IH]; intros Hext; [done|].
  rewrite !filter_cons, IH by (intros; apply Hext; by right).
  destruct (decide (P x)), (decide (Q x)); try done; exfalso;
    pose proof (Hext x ltac:(by left)); tauto.
Qed.

(** The students a report lists are roster students. *)
Lemma rows_of_uid students attendance code row :
  row ∈ rows_of students attendance code →
  ∃ s, s ∈ students ∧ Row.uid row = Student.uid s.
Proof. intros (s & Hs & _ & ->)%elem_of_rows_of. by exists s. Qed.

Lemma detail_of_uid att students date sec :
  (∀ e, e ∈ Detail.present (detail_of att students date sec) →
     ∃ s, s ∈ students ∧ e.2 = Student.uid s) ∧
  (∀ e, e ∈ Detail.absent (detail_of att students date sec) →
     ∃ s, s ∈ students ∧ e.1.2 = Student.uid s).
Proof.
  unfold detail_of, in_section; simpl. split; intros e;
    rewrite list_elem_of_fmap;
    intros (s & -> & [_ [_ Hs]%list_elem_of_filter]%list_elem_of_filter);
    by exists s.
Qed.

Lemma elem_of_details students attendance d per code det :
  (d, per) ∈ details (clean_report students attendance) → (code, det) ∈ per →
  det = detail_of (attendedSet attendance) students d code.
Proof.
  unfold clean_report; cbn [details]. intros Hper Hdet.
  apply list_elem_of_fmap in Hper as (d' & Heq & _).
  pose proof (f_equal fst Heq) as Hd. pose proof (f_equal snd Heq) as Hp.
  cbn [fst snd] in Hd, Hp. subst d' per.
  apply list_elem_of_fmap in Hdet as (sec & Heq' & _).
  pose proof (f_equal fst Heq') as Hc. pose proof (f_equal snd Heq') as Hdt.
  cbn [fst snd] in Hc, Hdt. by subst.
Qed.

(** C2, counterexample: a record whose identity is on no roster is counted in
    its section, and its date costs the roster student an absence. *)
Lemma orphan_is_counted :
  let students := [Student.mk "1" "Ada" "0201" None] in
  let orphan := Attendance.mk "9" "2026-02-06" "0201" in
  (∀ s, s ∈ students → Student.uid s ≠ Attendance.uid orphan) ∧
  ∃ r p r0 p0,
    aggregate ∅ students [orphan] = (Js.Returned r, p) ∧
    aggregate ∅ students [] = (Js.Returned r0, p0) ∧
    at_code "0201" (sections r) = Some [1] ∧
    at_code "0201" (sections r0) = Some [] ∧
    at_code "0201" (studentsBySection r) = Some [Row.mk "1" "Ada" "" 1] ∧
    at_code "0201" (studentsBySection r0) = Some [Row.mk "1" "Ada" "" 0] ∧
    sections r ≠ sections r0.
Proof.
  split.
  - intros s ->%list_elem_of_singleton. done.
  - vm_compute. eexists _, _, _, _. do 6 (split; [reflexivity|]). discriminate.
Qed.

(** C2, amended: in a process whose prototype is untouched, the dates of
    the records being calendar dates and no record being filed under
    [__proto__], a record whose identity is on no roster raises no error,
    leaves [rosterTotals] as they are, and its identity is listed in no
    [studentsBySection] roster and in no present or absent list of
    [details]; its date is in [dates] and the record is counted, once, in
    [sections] under its section and date. *)
Theorem orphan_effect students before a after :
  Forall (λ b, iso_date (Attendance.date b)) (before ++ a :: after) →
  unpolluting (before ++ a :: after) →
  (∀ s, s ∈ students → Student.uid s ≠ Attendance.uid a) →
  ∃ r r0,
    aggregate ∅ students (before ++ a :: after) = (Js.Returned r, ∅) ∧
    aggregate ∅ students (before ++ after) = (Js.Returned r0, ∅) ∧
    rosterTotals r = rosterTotals r0 ∧
    Attendance.date a ∈ dates r ∧
    (∀ code, code ∈ SECTIONS →
       at_code code (sections r)
       = Some ((λ d, (count_of (before ++ after) code d
                      + (if decide (Attendance.section a = code ∧ Attendance.date a = d)
                         then 1 else 0))%nat) <$> dates r)) ∧
    (∀ code rows row, at_code code (studentsBySection r) = Some rows →
       row ∈ rows → Row.uid row ≠ Attendance.uid a) ∧
    (∀ d per code det, (d, per) ∈ details r → (code, det) ∈ per →
       (∀ e, e ∈ Detail.present det → e.2 ≠ Attendance.uid a) ∧
       (∀ e, e ∈ Detail.absent det → e.1.2 ≠ Attendance.uid a)).
Proof.
  intros _ Hatt Horphan.
  assert (unpolluting (before ++ after)) as Hatt0.
  { unfold unpolluting in *. rewrite Forall_app, Forall_cons in Hatt.
    rewrite Forall_app. tauto. }
  exists (clean_report students (before ++ a :: after)),
    (clean_report students (before ++ after)).
  split; [by apply aggregate_clean|]. split; [by apply aggregate_clean|].
  split; [done|]. split; [|split; [|split]].
  - apply elem_of_all_dates. exists a. split; [|done].
    rewrite elem_of_app, elem_of_cons. auto.
  - intros code Hcode. rewrite clean_sections by done.
    f_equal. apply list_fmap_ext. intros _ d _. apply count_of_insert.
  - intros code rows row Hrows Hrow.
    pose proof (at_code_configured _ _ _ Hrows) as Hcode.
    rewrite clean_rows in Hrows by done. injection Hrows as <-.
    apply rows_of_uid in Hrow as (s & Hs & ->). by apply Horphan.
  - intros d per code det Hper Hdet.
    rewrite (elem_of_details _ _ _ _ _ _ Hper Hdet).
    destruct (detail_of_uid (attendedSet (before ++ a :: after)) students d code)
      as [Hpresent Habsent].
    split; intros e He.
    + destruct (Hpresent e He) as (s & Hs & ->). by apply Horphan.
    + destruct (Habsent e He) as (s & Hs & ->). by apply Horphan.
Qed.

Lemma orphan_effect_witness :
  let students := [Student.mk "1" "Ada" "0201" None] in
  let a := Attendance.mk "9" "2026-02-06" "0201" in
  ∃ r r0,
    aggregate ∅ students ([] ++ a :: []) = (Js.Returned r, ∅) ∧
    aggregate ∅ students ([] ++ []) = (Js.Returned r0, ∅) ∧
    rosterTotals r = rosterTotals r0 ∧
    Attendance.date a ∈ dates r ∧
    (∀ code, code ∈ SECTIONS →
       at_code code (sections r)
       = Some ((λ d, (count_of ([] ++ []) code d
                      + (if decide (Attendance.section a = code ∧ Attendance.date a = d)
                         then 1 else 0))%nat) <$> dates r)) ∧
    (∀ code rows row, at_code code (studentsBySection r) = Some rows →
       row ∈ rows → Row.uid row ≠ Attendance.uid a) ∧
    (∀ d per code det, (d, per) ∈ details r → (code, det) ∈ per →
       (∀ e, e ∈ Detail.present det → e.2 ≠ Attendance.uid a) ∧
       (∀ e, e ∈ Detail.absent det → e.1.2 ≠ Attendance.uid a)).
Proof.
  apply orphan_effect.
  - by apply Forall_singleton.
  - by apply Forall_singleton.
  - intros s ->%list_elem_of_singleton. done.
Defined.

(** ** A record of a section that is not configured *)

Lemma all_dates_insert before a after :
  (∀ b, b ∈ before ++ after → Attendance.date b ≠ Attendance.date a) →
  all_dates (before ++ a :: after) ≡ₚ Attendance.date a :: all_dates (before ++ after).
Proof.
  intros Hfresh. apply NoDup_Permutation.
  - apply all_dates_NoDup.
  - apply NoDup_cons. split; [|apply all_dates_NoDup].
    intros (b & Hb & Hd)%elem_of_all_dates. by apply (Hfresh b).
  - intros d. rewrite elem_of_cons, !elem_of_all_dates. split.
    + intros (b & Hb & <-). rewrite elem_of_app, elem_of_cons in Hb.
      destruct Hb as [Hb|[->|Hb]]; [right|by left|right];
        exists b; rewrite elem_of_app; auto.
    + intros [->|(b & Hb & <-)].
      * exists a. rewrite elem_of_app, elem_of_cons. tauto.
      * exists b. rewrite elem_of_app in Hb. rewrite elem_of_app, elem_of_cons. tauto.
Qed.

Lemma row_of_insert before a after s :
  Forall (λ b, iso_date (Attendance.date b)) (before ++ a :: after) →
  (∀ b, b ∈ before ++ after → Attendance.date b ≠ Attendance.date a) →
  row_of (attendedSet (before ++ a :: after)) (all_dates (before ++ a :: after)) s
  = one_more_absence a
      (row_of (attendedSet (before ++ after)) (all_dates (before ++ after)) s).
Proof.
  intros Hiso Hfresh.
  assert (Forall (λ b, iso_date (Attendance.date b)) (before ++ after)) as Hiso0.
  { rewrite Forall_app, Forall_cons in Hiso. rewrite Forall_app. tauto. }
  rewrite !row_of_recorded by done.
  rewrite (all_dates_insert before a after Hfresh).
  assert (filter (λ d, ¬ recorded (before ++ a :: after) (Student.uid s) d)
            (all_dates (before ++ after))
          = filter (λ d, ¬ recorded (before ++ after) (Student.uid s) d)
              (all_dates (before ++ after))) as Hrest.
  { apply filter_ext_elem_of. intros d (b & Hb & <-)%elem_of_all_dates.
    rewrite recorded_insert. specialize (Hfresh b Hb). split; [tauto|].
    intros H [H'|[_ H']]; [tauto|congruence]. }
  assert (recorded (before ++ a :: after) (Student.uid s) (Attendance.date a)
          ↔ Student.uid s = Attendance.uid a) as Hown.
  { rewrite recorded_insert. split; [|by auto].
    intros [(b & Hb & _ & Hd)%Exists_exists|[Hu _]]; [|done].
    by destruct (Hfresh b Hb). }
  unfold one_more_absence. cbn [Row.uid Row.name Row.email Row.absences].
  rewrite filter_cons, Hrest.
  destruct (decide (Student.uid s = Attendance.uid a)) as [Hu|Hu].
  - rewrite decide_False by tauto. done.
  - rewrite decide_True by tauto. done.
Qed.

(** C10, counterexample: the roster student who filed the record is not
    absent on its date; the absence count stays 0. *)
Lemma own_record_is_no_absence :
  let students := [Student.mk "1" "Ada" "0201" None] in
  let a := Attendance.mk "1" "2026-02-06" "0204" in
  (Attendance.section a ∉ SECTIONS) ∧
  ∃ r p r0 p0,
    aggregate ∅ students [a] = (Js.Returned r, p) ∧
    aggregate ∅ students [] = (Js.Returned r0, p0) ∧
    dates r = ["2026-02-06"] ∧ dates r0 = [] ∧
    at_code "0201" (studentsBySection r) = Some [Row.mk "1" "Ada" "" 0] ∧
    at_code "0201" (studentsBySection r0) = Some [Row.mk "1" "Ada" "" 0].
Proof.
  split.
  - unfold SECTIONS. rewrite !not_elem_of_cons.
    split_and!; [done..|apply not_elem_of_nil].
  - vm_compute. eexists _, _, _, _. repeat split.
Qed.

(** C10, amended: in a process whose prototype is untouched, the dates of
    the records being calendar dates and no record being filed under
    [__proto__], a record whose section is not configured is counted in no
    [sections[code]]; its date is in the date list all the same, and when no
    other record has that date, the date list and every section's counts
    are one entry longer, the entry of the counts being zero, and the
    absence count is one higher for every roster student but the one whose
    identity the record carries. *)
Theorem unconfigured_section_record students before a after :
  Forall (λ b, iso_date (Attendance.date b)) (before ++ a :: after) →
  unpolluting (before ++ a :: after) →
  Attendance.section a ∉ SECTIONS →
  (∀ b, b ∈ before ++ after → Attendance.date b ≠ Attendance.date a) →
  ∃ r r0,
    aggregate ∅ students (before ++ a :: after) = (Js.Returned r, ∅) ∧
    aggregate ∅ students (before ++ after) = (Js.Returned r0, ∅) ∧
    dates r ≡ₚ Attendance.date a :: dates r0 ∧
    ∀ code, code ∈ SECTIONS →
      ∃ counts counts0 rows rows0,
        at_code code (sections r) = Some counts ∧
        at_code code (sections r0) = Some counts0 ∧
        counts = count_of (before ++ after) code <$> dates r ∧
        count_of (before ++ after) code (Attendance.date a) = 0 ∧
        length counts = S (length counts0) ∧
        at_code code (studentsBySection r) = Some rows ∧
        at_code code (studentsBySection r0) = Some rows0 ∧
        rows ≡ₚ one_more_absence a <$> rows0.
Proof.
  intros Hiso Hatt Hsec Hfresh.
  assert (unpolluting (before ++ after)) as Hatt0.
  { unfold unpolluting in *. rewrite Forall_app, Forall_cons in Hatt.
    rewrite Forall_app. tauto. }
  exists (clean_report students (before ++ a :: after)),
    (clean_report students (before ++ after)).
  split; [by apply aggregate_clean|]. split; [by apply aggregate_clean|].
  split; [by apply all_dates_insert|].
  intros code Hcode.
  exists (count_of (before ++ a :: after) code <$> all_dates (before ++ a :: after)),
    (count_of (before ++ after) code <$> all_dates (before ++ after)),
    (rows_of students (before ++ a :: after) code),
    (rows_of students (before ++ after) code).
  split; [by apply clean_sections|]. split; [by apply clean_sections|].
  split; [|split; [|split; [|split; [|split]]]].
  - apply list_fmap_ext. intros _ d _. rewrite count_of_insert.
    rewrite decide_False; [lia|]. intros [<- _]. done.
  - unfold count_of.
    destruct (filter _ (before ++ after)) as [|b l] eqn:Hf; [done|].
    assert (b ∈ filter (λ x, Attendance.section x = code
                              ∧ Attendance.date x = Attendance.date a) (before ++ after))
      as [[_ Hd] Hb]%list_elem_of_filter by (rewrite Hf; left).
    by destruct (Hfresh b Hb).
  - rewrite !length_fmap. cbn [dates clean_report].
    by rewrite (all_dates_insert before a after Hfresh).
  - by apply clean_rows.
  - by apply clean_rows.
  - unfold rows_of. rewrite !sort_perm.
    rewrite <- list_fmap_compose.
    erewrite list_fmap_ext; [reflexivity|].
    intros _ s _. by apply row_of_insert.
Qed.

Lemma unconfigured_section_record_witness :
  let students := [Student.mk "1" "Ada" "0201" None; Student.mk "2" "Bob" "0201" None] in
  let a := Attendance.mk "1" "2026-02-13" "0204" in
  let before := [Attendance.mk "1" "2026-02-06" "0201"] in
  ∃ r r0,
    aggregate ∅ students (before ++ a :: []) = (Js.Returned r, ∅) ∧
    aggregate ∅ students (before ++ []) = (Js.Returned r0, ∅) ∧
    dates r ≡ₚ Attendance.date a :: dates r0 ∧
    ∀ code, code ∈ SECTIONS →
      ∃ counts counts0 rows rows0,
        at_code code (sections r) = Some counts ∧
        at_code code (sections r0) = Some counts0 ∧
        counts = count_of (before ++ []) code <$> dates r ∧
        count_of (before ++ []) code (Attendance.date a) = 0 ∧
        length counts = S (length counts0) ∧
        at_code code (studentsBySection r) = Some rows ∧
        at_code code (studentsBySection r0) = Some rows0 ∧
        rows ≡ₚ one_more_absence a <$> rows0.
Proof.
  apply unconfigured_section_record.
  - by repeat apply Forall_cons_2.
  - by repeat apply Forall_cons_2.
  - unfold SECTIONS. rewrite !not_elem_of_cons.
    split_and!; [done..|apply not_elem_of_nil].
  - intros b ->%list_elem_of_singleton. done.
Defined.

(** * stats.js: the credential check *)

Section Authorization.
Context (base64_decode : string → string).

(** C9: a request without the configured credentials is answered 401 with
    a [WWW-Authenticate] challenge by a handler that has not touched the
    store, and a handler that touches the store has seen the configured
    credentials. *)
Theorem unauthorized_before_store e p0 ev :
  (¬ authorized base64_decode e ev →
     ∃ text,
       Stats.handler base64_decode e p0 ev
       = Db.Ret (Js.Returned (Http.mkResponse 401 challenge (Http.Text text)), p0) ∧
       "WWW-Authenticate" ∈ (fst <$> challenge)) ∧
  ((∀ r, Stats.handler base64_decode e p0 ev ≠ Db.Ret r) → authorized base64_decode e ev).
Proof.
  unfold Stats.handler.
  destruct (credentials base64_decode ev) as [[user pass]|] eqn:Hc.
  - destruct (bool_decide _) eqn:Hb.
    + split; [|intros Hstore; by destruct (Hstore _ eq_refl)].
      intros _. eexists. split; [reflexivity|]. by left.
    + apply bool_decide_eq_false in Hb.
      assert (authorized base64_decode e ev) as Hyes.
      { exists user, pass. split; [done|].
        destruct (decide (Some user = ADMIN_USER e)), (decide (Some pass = ADMIN_PASS e));
          tauto. }
      split; [by intros []|done].
  - split; [|intros Hstore; by destruct (Hstore _ eq_refl)].
    intros _. eexists. split; [reflexivity|]. by left.
Qed.
End Authorization.

Lemma unauthorized_before_store_witness :
  let e := mkEnv (Some "ta") (Some "secret") in
  ∃ text,
    Stats.handler (λ s, s) e ∅ (Stats.mkEvent None)
    = Db.Ret (Js.Returned (Http.mkResponse 401 challenge (Http.Text text)), ∅) ∧
    "WWW-Authenticate" ∈ (fst <$> challenge).
Proof.
  apply (unauthorized_before_store (λ s, s)).
  intros (user & pass & Hc & _). discriminate Hc.
Defined.

(** * submitAttendance.js: the checks *)

(** Where the section check of the handler and the configuration agree: on
    every code that is not the name of a member of [Object.prototype]. *)
Lemma section_check_configured section :
  section ≠ "__proto__" → section ∉ Js.prototype_functions →
  Js.truthy (Js.get WINDOWS ∅ section) = true ↔ is_Some (WINDOWS !! section).
Proof.
  intros H1 H2. unfold Js.get.
  destruct (WINDOWS !! section) as [w|]; simpl; [by split; eauto|].
  rewrite decide_False, decide_False, lookup_empty by done. simpl.
  split; [done|]. by intros [? ?].
Qed.

Lemma configured_own section w :
  WINDOWS !! section = Some w → Js.get WINDOWS ∅ section = Js.Own w.
Proof. intros H. unfold Js.get. by rewrite H. Qed.

Lemma configured_not_empty section w : WINDOWS !! section = Some w → falsy (Some section) = false.
Proof. intros H. simpl. apply String.eqb_neq. by intros ->. Qed.

Lemma numeric_not_empty uid : numeric uid = true → falsy (Some uid) = false.
Proof.
  unfold numeric. intros [H _]%andb_true_iff. simpl. by apply negb_true_iff in H.
Qed.

(** The handler up to the store, for a well-formed submission of a
    configured section. *)
Lemma handler_to_time_check bypass now uid section w :
  numeric uid = true → WINDOWS !! section = Some w →
  Submit.handler bypass now (Submit.mkEvent "POST" (Fields (Some uid) (Some section)))
  = match time_check bypass (eastern now) section (Js.Own w) with
    | Some rejection => respond 400 rejection
    | None =>
        let p := eastern now in
        let dateStr := year p +:+ "-" +:+ month p +:+ "-" +:+ day p in
        Db.GetDb (Db.await (λ _,
        Db.FindOneStudent uid (Db.await (λ student,
        match student with
        | None => respond 400 (Http.Error "UID not found in roster")
        | Some st =>
            if negb (String.eqb (Student.section st) section) then
              respond 400 (Http.Error "Section does not match your registered section")
            else
              Db.CreateIndex ["uid"; "date"] true (guarded (λ _,
              Db.CreateIndex ["date"; "section"] false (guarded (λ _,
              Db.InsertOne (AttendanceRecord.mk uid dateStr section (iso now)) (guarded (λ _,
              respond 200 (Http.Recorded "Attendance recorded successfully!" dateStr)))))))
        end))))
    end.
Proof.
  intros Hu Hw. unfold Submit.handler. cbn [httpMethod body].
  rewrite (numeric_not_empty uid Hu), (configured_not_empty section w Hw).
  cbn [orb negb from_option id String.eqb Ascii.eqb Bool.eqb andb]. rewrite Hu. cbn [negb].
  rewrite (configured_own section w Hw). cbn [Js.truthy negb]. reflexivity.
Qed.

Lemma configured_one_hour section w :
  WINDOWS !! section = Some w → end_ w = S (start w).
Proof.
  unfold WINDOWS. rewrite !lookup_insert_Some, lookup_singleton_Some.
  intros [[_ <-]|[_ [[_ <-]|[_ [_ <-]]]]]; reflexivity.
Qed.

(** The time check on a Friday, bypass off, for a configured section. *)
Lemma time_check_window bypass p section w :
  bypass ≠ Some "true" → weekday p = "Fri" →
  time_check bypass p section (Js.Own w)
  = if decide (start w * 60 ≤ hour p * 60 + minute p < end_ w * 60) then None
    else Some (Http.Error (outside_message section (Js.Own w))).
Proof.
  intros Hb Hfri. unfold time_check. rewrite bool_decide_eq_true_2 by done.
  rewrite Hfri. cbn [String.eqb Ascii.eqb Bool.eqb negb andb minutes lt ge from_option].
  destruct (Nat.ltb_spec (hour p * 60 + minute p) (start w * 60)),
    (Nat.leb_spec (end_ w * 60) (hour p * 60 + minute p)); simpl;
    destruct (decide _); (done || lia).
Qed.

(** C3: with the bypass off, on a Friday, a well-formed submission for a
    configured section goes on to the store exactly when the minute of the
    day lies in [[start * 60, end * 60)], and is otherwise answered 400 with
    a message that names the section and its start and end hours; at
    [start:00] it goes on, at [end:00] it is answered 400. *)
Theorem window_half_open bypass now uid section w :
  numeric uid = true → WINDOWS !! section = Some w →
  bypass ≠ Some "true" → weekday (eastern now) = "Fri" →
  let ev := Submit.mkEvent "POST" (Fields (Some uid) (Some section)) in
  let m := hour (eastern now) * 60 + minute (eastern now) in
  let passes := ∃ k, Submit.handler bypass now ev = Db.GetDb k in
  let rejected :=
    Submit.handler bypass now ev
    = respond 400
        (Http.Error ("Outside attendance window for section " +:+ section +:+ " ("
                     +:+ pretty (start w) +:+ ":00–" +:+ pretty (end_ w) +:+ ":00 ET)")) in
  (start w * 60 ≤ m < end_ w * 60 → passes) ∧
  (¬ (start w * 60 ≤ m < end_ w * 60) → rejected) ∧
  (hour (eastern now) = start w → minute (eastern now) = 0 → passes) ∧
  (hour (eastern now) = end_ w → minute (eastern now) = 0 → rejected).
Proof.
  intros Hu Hw Hb Hfri ev m passes rejected. subst ev passes rejected.
  pose proof (configured_one_hour section w Hw) as Hhour.
  rewrite (handler_to_time_check bypass now uid section w Hu Hw).
  rewrite (time_check_window bypass (eastern now) section w Hb Hfri). fold m.
  destruct (decide (start w * 60 ≤ m < end_ w * 60)) as [Hin|Hout].
  - split_and!; [by eauto|done|by eauto|]. intros Hh Hm. subst m. lia.
  - split_and!; [done|done| |done]. intros Hh Hm. subst m. lia.
Qed.

Lemma window_half_open_witness :
  let now := mkClock (mkParts "Fri" "2026" "02" "06" 12 0) "2026-02-06T17:00:00.000Z" in
  let ev := Submit.mkEvent "POST" (Fields (Some "117000001") (Some "0201")) in
  let m := hour (eastern now) * 60 + minute (eastern now) in
  let passes := ∃ k, Submit.handler None now ev = Db.GetDb k in
  let rejected :=
    Submit.handler None now ev
    = respond 400
        (Http.Error ("Outside attendance window for section " +:+ "0201" +:+ " ("
                     +:+ pretty 12 +:+ ":00–" +:+ pretty 13 +:+ ":00 ET)")) in
  (12 * 60 ≤ m < 13 * 60 → passes) ∧
  (¬ (12 * 60 ≤ m < 13 * 60) → rejected) ∧
  (hour (eastern now) = 12 → minute (eastern now) = 0 → passes) ∧
  (hour (eastern now) = 13 → minute (eastern now) = 0 → rejected).
Proof.
  apply (window_half_open None _ "117000001" "0201" (mkWindow 12 13));
    [reflexivity|reflexivity|discriminate|reflexivity].
Defined.

(** ** The insert *)

(** An accepted submission whose [(uid, date)] is free is answered 200 with
    the computed date and leaves the collection one record longer, the
    record being [{uid, date, section, timestamp}]; one whose [(uid, date)]
    is taken is answered 409 and leaves the store as it was; and when the
    store fails an operation of the insert block with a code other than
    11000, that very error escapes the handler, the store being as it was. *)
Theorem insert_once bypass now uid section s :
  accepted bypass now uid section s →
  let ev := Submit.mkEvent "POST" (Fields (Some uid) (Some section)) in
  let p := eastern now in
  let dateStr := year p +:+ "-" +:+ month p +:+ "-" +:+ day p in
  let doc := AttendanceRecord.mk uid dateStr section (iso now) in
  (¬ Exists (Db.same_key doc) (Db.attendance s) →
     Db.run (Submit.handler bypass now ev) [] s
     = (Js.Returned (Http.mkResponse 200 Http.json_headers
                       (Http.Recorded "Attendance recorded successfully!" dateStr)),
        Db.mkStore (Db.students s) (Db.attendance s ++ [doc]))) ∧
  (Exists (Db.same_key doc) (Db.attendance s) →
     Db.run (Submit.handler bypass now ev) [] s
     = (Js.Returned (Http.mkResponse 409 Http.json_headers
                       (Http.Error "Attendance already submitted for today")), s)) ∧
  (∀ n err later, n < 3 → Js.code err ≠ Some Db.DUPLICATE_KEY →
     Db.run (Submit.handler bypass now ev) (replicate (2 + n) None ++ Some err :: later) s
     = (Js.Threw err, s)).
Proof.
  intros [Hu [w Hw] Ht (st & Hst & Hsec)] ev p dateStr doc. subst ev.
  rewrite (handler_to_time_check bypass now uid section w Hu Hw).
  rewrite (configured_own section w Hw) in Ht. rewrite Ht.
  split; [|split].
  - intros Hfree. simpl. rewrite Hst. simpl.
    rewrite Hsec, String.eqb_refl. simpl.
    unfold Db.insert_one. rewrite decide_False by done. reflexivity.
  - intros Htaken. simpl. rewrite Hst. simpl.
    rewrite Hsec, String.eqb_refl. simpl.
    unfold Db.insert_one. rewrite decide_True by done. reflexivity.
  - intros n err later Hn Herr.
    assert (bool_decide (Js.code err = Some Db.DUPLICATE_KEY) = false) as Hcode
      by by apply bool_decide_eq_false.
    destruct n as [|[|[|n]]]; [| | |lia]; simpl; rewrite Hst; simpl;
      rewrite Hsec, String.eqb_refl; simpl; by rewrite Hcode.
Qed.

Lemma insert_once_witness :
  let now := mkClock (mkParts "Fri" "2026" "02" "06" 12 30) "2026-02-06T17:30:00.000Z" in
  let s := Db.mkStore [Student.mk "117000001" "Ada" "0201" None] [] in
  let ev := Submit.mkEvent "POST" (Fields (Some "117000001") (Some "0201")) in
  let doc := AttendanceRecord.mk "117000001" "2026-02-06" "0201" (iso now) in
  (¬ Exists (Db.same_key doc) (Db.attendance s) →
     Db.run (Submit.handler None now ev) [] s
     = (Js.Returned (Http.mkResponse 200 Http.json_headers
                       (Http.Recorded "Attendance recorded successfully!" "2026-02-06")),
        Db.mkStore (Db.students s) (Db.attendance s ++ [doc]))) ∧
  (Exists (Db.same_key doc) (Db.attendance s) →
     Db.run (Submit.handler None now ev) [] s
     = (Js.Returned (Http.mkResponse 409 Http.json_headers
                       (Http.Error "Attendance already submitted for today")), s)) ∧
  (∀ n err later, n < 3 → Js.code err ≠ Some Db.DUPLICATE_KEY →
     Db.run (Submit.handler None now ev) (replicate (2 + n) None ++ Some err :: later) s
     = (Js.Threw err, s)).
Proof.
  apply (insert_once None
           (mkClock (mkParts "Fri" "2026" "02" "06" 12 30) "2026-02-06T17:30:00.000Z")
           "117000001" "0201"
           (Db.mkStore [Student.mk "117000001" "Ada" "0201" None] [])).
  split.
  - reflexivity.
  - by eexists.
  - reflexivity.
  - eexists. split; reflexivity.
Defined.


Lemma NoDup_keys_snoc (l : list AttendanceRecord.t) doc :
  NoDup ((λ r, (AttendanceRecord.uid r, AttendanceRecord.date r)) <$> l) →
  ¬ Exists (Db.same_key doc) l →
  NoDup ((λ r, (AttendanceRecord.uid r, AttendanceRecord.date r)) <$> (l ++ [doc])).
Proof.
  intros Hnd Hfree. rewrite fmap_app. apply NoDup_app. split_and!; [done| |apply NoDup_singleton].
  intros k (r & -> & Hr)%list_elem_of_fmap Hk%list_elem_of_singleton.
  apply Hfree, Exists_exists. exists r. split; [done|].
  unfold Db.same_key. by simplify_eq.
Qed.

(** The unique index at work: the handler never leaves two records with one
    [(uid, date)] where there were none. *)
Lemma run_handler_unique bypass now ev faults s :
  NoDup ((λ r, (AttendanceRecord.uid r, AttendanceRecord.date r)) <$> Db.attendance s) →
  NoDup ((λ r, (AttendanceRecord.uid r, AttendanceRecord.date r))
           <$> Db.attendance (Db.run (Submit.handler bypass now ev) faults s).2).
Proof.
  intros Hnd. unfold Submit.handler.
  destruct (negb _); [done|]. destruct (body ev) as [| |uid section]; [done..|].
  destruct (_ || _); [done|]. destruct (negb _); [done|]. destruct (negb _); [done|].
  destruct (time_check _ _ _ _); [done|].
  simpl.
  repeat (match goal with
          | |- context [mjoin (head ?f)] => is_var f; destruct f as [|[?|] ?]
          | |- context [Db.find_one ?u ?s] => destruct (Db.find_one u s) as [?|]
          | |- context [negb ?b] => destruct (negb b)
          | |- context [bool_decide ?P] => destruct (bool_decide P)
          end; simpl); try done.
  all: unfold Db.insert_one;
    match goal with |- context [decide ?P] => destruct (decide P) as [Hdup|Hdup] end;
    simpl; try done.
  all: by apply NoDup_keys_snoc.
Qed.

(** ** The order of the checks *)

(** An identity that is not all digits never reaches the store. *)
Lemma non_numeric_before_store bypass now method uid section :
  numeric (default "" uid) = false →
  ∃ r, Submit.handler bypass now (Submit.mkEvent method (Fields uid section)) = Db.Ret r.
Proof.
  intros Hu. unfold Submit.handler. cbn [httpMethod body].
  destruct (negb _); [by eexists|].
  destruct (_ || _); [by eexists|].
  rewrite Hu. by eexists.
Qed.

(** For a section code that is not the name of a member of
    [Object.prototype], the checks before the store come in the order of the
    specification, the first that fails giving the answer. *)
Lemma checks_in_order bypass now uid section :
  section ≠ "__proto__" → section ∉ Js.prototype_functions →
  let ev := Submit.mkEvent "POST" (Fields uid (Some section)) in
  let answer msg := Submit.handler bypass now ev = respond 400 (Http.Error msg) in
  (falsy uid || falsy (Some section) = true → answer "Missing UID or section") ∧
  (falsy uid || falsy (Some section) = false →
     (numeric (default "" uid) = false → answer "UID must be numeric") ∧
     (numeric (default "" uid) = true →
        (WINDOWS !! section = None → answer "Invalid section") ∧
        (is_Some (WINDOWS !! section) → bypass ≠ Some "true" →
           weekday (eastern now) ≠ "Fri" →
           answer "Attendance can only be submitted on Fridays"))).
Proof.
  intros Hp Hf ev answer. subst ev answer. unfold Submit.handler.
  cbn [httpMethod body String.eqb Ascii.eqb Bool.eqb andb negb from_option id].
  split; [by intros ->|]. intros ->. split; [by intros ->|]. intros ->. cbn [negb].
  split.
  - intros Hw. unfold Js.get. rewrite Hw.
    by rewrite decide_False, decide_False, lookup_empty.
  - intros [w Hw] Hb Hday. rewrite (configured_own section w Hw). cbn [Js.truthy negb].
    unfold time_check. rewrite bool_decide_eq_true_2 by done.
    apply String.eqb_neq in Hday. by rewrite Hday.
Qed.

(** Past the time check, the roster decides: an unknown identity first, a
    section other than the registered one second. *)
Lemma roster_checks bypass now uid section w s :
  numeric uid = true → WINDOWS !! section = Some w →
  time_check bypass (eastern now) section (Js.Own w) = None →
  let ev := Submit.mkEvent "POST" (Fields (Some uid) (Some section)) in
  let answer msg :=
    Db.run (Submit.handler bypass now ev) [] s
    = (Js.Returned (Http.mkResponse 400 Http.json_headers (Http.Error msg)), s) in
  (Db.find_one uid s = None → answer "UID not found in roster") ∧
  (∀ st, Db.find_one uid s = Some st → Student.section st ≠ section →
     answer "Section does not match your registered section").
Proof.
  intros Hu Hw Ht ev answer. subst ev answer.
  rewrite (handler_to_time_check bypass now uid section w Hu Hw), Ht.
  split.
  - intros Hnone. simpl. by rewrite Hnone.
  - intros st Hst Hne. simpl. rewrite Hst. simpl.
    apply String.eqb_neq in Hne. by rewrite Hne.
Qed.

(** C5: the section check lets through a code that is no configured section
    but the name of a member every object inherits.  On a Tuesday such a
    submission is told that attendance is for Fridays, not that its section
    is invalid; and on a Friday, at a quarter past three in the morning, it
    passes the time check and is looked up in the roster. *)
Theorem inherited_section_passes :
  let ev := Submit.mkEvent "POST" (Fields (Some "117000001") (Some "constructor")) in
  let tuesday := mkClock (mkParts "Tue" "2026" "02" "03" 12 30) "2026-02-03T17:30:00.000Z" in
  let friday := mkClock (mkParts "Fri" "2026" "02" "06" 3 15) "2026-02-06T08:15:00.000Z" in
  let s := Db.mkStore [Student.mk "117000001" "Ada" "0201" None] [] in
  WINDOWS !! "constructor" = None ∧
  Submit.handler None tuesday ev
  = respond 400 (Http.Error "Attendance can only be submitted on Fridays") ∧
  Db.run (Submit.handler None friday ev) [] s
  = (Js.Returned (Http.mkResponse 400 Http.json_headers
                    (Http.Error "Section does not match your registered section")), s).
Proof. repeat split. Qed.

(** * The examples of the specification *)

(** Roster of two students of one section, one of whom attended the one
    date. *)
Example report_of_two :
  aggregate ∅
    [Student.mk "1" "Ada" "0201" None; Student.mk "2" "Bob" "0201" None]
    [Attendance.mk "1" "2026-02-06" "0201"]
  = (Js.Returned
       (mkReport ["2026-02-06"]
          [("0201", [1]); ("0202", [0]); ("0203", [0])]
          [("0201", 2); ("0202", 0); ("0203", 0)]
          [("0201", [Row.mk "2" "Bob" "" 1; Row.mk "1" "Ada" "" 0]); ("0202", []); ("0203", [])]
          [("2026-02-06",
             [("0201", Detail.mk [("Ada", "1")] [("Bob", "2", "")]);
              ("0202", Detail.mk [] []); ("0203", Detail.mk [] [])])]), ∅).
Proof. vm_compute. reflexivity. Qed.

(** One minute past the end of the window of section 0201. *)
Example one_minute_late :
  Submit.handler None
    (mkClock (mkParts "Fri" "2026" "02" "06" 13 1) "2026-02-06T18:01:00.000Z")
    (Submit.mkEvent "POST" (Fields (Some "117000001") (Some "0201")))
  = respond 400
      (Http.Error "Outside attendance window for section 0201 (12:00–13:00 ET)").
Proof. reflexivity. Qed.

(** * stats.js: more of the report *)

Lemma dates_sorted_distinct_witness :
  let attendance := [Attendance.mk "2" "2026-02-13" "0202"; Attendance.mk "1" "2026-02-06" "0201";
                     Attendance.mk "1" "2026-02-13" "0201"] in
  StronglySorted lex_lt ["2026-02-06"; "2026-02-13"] ∧
  NoDup ["2026-02-06"; "2026-02-13"] ∧
  ∀ d, d ∈ ["2026-02-06"; "2026-02-13"] ↔ ∃ a, a ∈ attendance ∧ Attendance.date a = d.
Proof.
  intros attendance.
  apply (dates_sorted_distinct ∅ [] attendance (clean_report [] attendance) ∅).
  vm_compute. reflexivity.
Defined.

Lemma sections_counted_witness :
  let students := [Student.mk "1" "Ada" "0201" None; Student.mk "2" "Bob" "0201" None] in
  let attendance := [Attendance.mk "1" "2026-02-06" "0201"; Attendance.mk "9" "2026-02-06" "0204"] in
  ∃ r, aggregate ∅ students attendance = (Js.Returned r, ∅) ∧
    at_code "0201" (sections r) = Some (count_of attendance "0201" <$> dates r) ∧
    at_code "0201" (rosterTotals r)
    = Some (length (filter (λ s, Student.section s = "0201") students)).
Proof.
  apply sections_counted.
  - by repeat apply Forall_cons_2.
  - by repeat apply Forall_cons_2.
  - by left.
Defined.

Lemma aggregate_keeps_prototype_witness :
  (aggregate {[ "2026-01-30" := 2 ]} [] [Attendance.mk "1" "2026-02-06" "0201"]).2
  = {[ "2026-01-30" := 2 ]}.
Proof. apply aggregate_keeps_prototype. by apply Forall_singleton. Defined.

(** A list the comparator already has in order is left as it is. *)
Lemma sort_in_order {A} (cmp : A → A → Z) (l : list A) :
  (∀ x y, x ∈ l → y ∈ l → before cmp x y) → Js.sort cmp l = l.
Proof.
  induction l as [|x l IH]; intros Hall; [done|].
  change (Js.sort cmp (x :: l)) with (Js.insert cmp x (Js.sort cmp l)).
  rewrite IH by (intros; apply Hall; by right).
  destruct l as [|y l]; [done|]. simpl.
  assert (before cmp x y) as Hxy by (apply Hall; [by left|by right; left]).
  unfold before in Hxy. apply Z.leb_le in Hxy. by rewrite Hxy.
Qed.

Lemma rows_without_dates att sec students :
  Js.sort most_absences_first (row_of att [] <$> in_section sec students)
  = (λ s, Row.mk (Student.uid s) (Student.name s) (default "" (Student.email s)) 0)
      <$> filter (λ s, Student.section s = sec) students.
Proof.
  apply sort_in_order.
  intros x y (s & -> & _)%list_elem_of_fmap (s' & -> & _)%list_elem_of_fmap.
  unfold before, most_absences_first, row_of, absences_of. simpl. lia.
Qed.

(** The report of an empty attendance collection: no dates, no counts, no
    details, and every roster in roster order with no absences; the
    prototype is not touched. *)
Theorem aggregate_no_attendance p0 students :
  aggregate p0 students []
  = (Js.Returned
       (mkReport []
          ((λ sec, (sec, [])) <$> SECTIONS)
          ((λ sec, (sec, length (filter (λ s, Student.section s = sec) students))) <$> SECTIONS)
          ((λ sec, (sec, (λ s, Row.mk (Student.uid s) (Student.name s)
                                  (default "" (Student.email s)) 0)
                           <$> filter (λ s, Student.section s = sec) students)) <$> SECTIONS)
          []), p0).
Proof. unfold aggregate. simpl. by rewrite !rows_without_dates. Qed.

Lemma aggregate_returned_details p0 students attendance r p :
  aggregate p0 students attendance = (Js.Returned r, p) →
  details r
  = (λ date, (date, (λ sec, (sec, detail_of (attendedSet attendance) students date sec))
                      <$> SECTIONS)) <$> all_dates attendance.
Proof.
  unfold aggregate.
  destruct (count_all attendance _) as [[st|e] p'] eqn:Hloop; [|done].
  apply count_all_dateSet in Hloop. simpl in Hloop.
  intros [= <- _]. simpl. unfold all_dates. by rewrite Hloop.
Qed.

Lemma details_at p0 students attendance r p d code :
  aggregate p0 students attendance = (Js.Returned r, p) →
  d ∈ dates r → code ∈ SECTIONS →
  at_code d (details r) ≫= at_code code
  = Some (detail_of (attendedSet attendance) students d code).
Proof.
  intros Hr Hd Hcode.
  pose proof (aggregate_returned _ _ _ _ _ Hr) as (Hdates & _).
  rewrite (aggregate_returned_details _ _ _ _ _ Hr). rewrite Hdates in Hd.
  rewrite (at_code_fmap (λ date, (λ sec, (sec, detail_of (attendedSet attendance) students date sec))
                                   <$> SECTIONS)) by done.
  cbn [mbind option_bind].
  by apply (at_code_fmap (detail_of (attendedSet attendance) students d)).
Qed.

Lemma details_lists p0 students attendance r p d code :
  Forall (λ a, iso_date (Attendance.date a)) attendance →
  aggregate p0 students attendance = (Js.Returned r, p) →
  d ∈ dates r → code ∈ SECTIONS →
  ∃ det total,
    at_code d (details r) ≫= at_code code = Some det ∧
    at_code code (rosterTotals r) = Some total ∧
    Detail.present det
    = (λ s, (Student.name s, Student.uid s))
        <$> filter (λ s, recorded attendance (Student.uid s) d)
              (filter (λ s, Student.section s = code) students) ∧
    Detail.absent det
    = (λ s, (Student.name s, Student.uid s, default "" (Student.email s)))
        <$> filter (λ s, ¬ recorded attendance (Student.uid s) d)
              (filter (λ s, Student.section s = code) students) ∧
    length (Detail.present det) + length (Detail.absent det) = total.
Proof.
  intros Hiso Hr Hd Hcode.
  pose proof (aggregate_returned _ _ _ _ _ Hr) as (Hdates & Htotals & _).
  assert (iso_date d) as Hdiso.
  { rewrite Hdates in Hd. pose proof (all_dates_iso attendance Hiso) as Hall.
    rewrite Forall_forall in Hall. auto. }
  exists (detail_of (attendedSet attendance) students d code),
    (length (in_section code students)).
  split; [by eapply details_at|].
  split; [by rewrite Htotals, (at_code_fmap (λ sec, length (in_section sec students)))|].
  unfold detail_of, in_section. cbn [Detail.present Detail.absent].
  assert (filter (λ s, key (Student.uid s) d ∈ attendedSet attendance)
            (filter (λ s, Student.section s = code) students)
          = filter (λ s, recorded attendance (Student.uid s) d)
              (filter (λ s, Student.section s = code) students)) as ->.
  { apply list_filter_iff. intros s. by apply elem_of_attendedSet. }
  assert (filter (λ s, key (Student.uid s) d ∉ attendedSet attendance)
            (filter (λ s, Student.section s = code) students)
          = filter (λ s, ¬ recorded attendance (Student.uid s) d)
              (filter (λ s, Student.section s = code) students)) as ->.
  { apply list_filter_iff. intros s. by rewrite elem_of_attendedSet. }
  split; [done|]. split; [done|].
  rewrite !length_fmap, length_filter_not.
  pose proof (length_filter (λ s, recorded attendance (Student.uid s) d)
                (filter (λ s, Student.section s = code) students)). lia.
Qed.

(** For every date of the report and every configured section there is a
    detail; its present list holds, in roster order, the students of the
    section with a record on that date (of whatever section), its absent
    list the others, and the two together count the roster of the section. *)
Theorem details_partition p0 students attendance r p d code :
  Forall (λ a, iso_date (Attendance.date a)) attendance →
  aggregate p0 students attendance = (Js.Returned r, p) →
  d ∈ dates r → code ∈ SECTIONS →
  ∃ det total,
    at_code d (details r) ≫= at_code code = Some det ∧
    at_code code (rosterTotals r) = Some total ∧
    Detail.present det
    = (λ s, (Student.name s, Student.uid s))
        <$> filter (λ s, recorded attendance (Student.uid s) d)
              (filter (λ s, Student.section s = code) students) ∧
    Detail.absent det
    = (λ s, (Student.name s, Student.uid s, default "" (Student.email s)))
        <$> filter (λ s, ¬ recorded attendance (Student.uid s) d)
              (filter (λ s, Student.section s = code) students) ∧
    length (Detail.present det) + length (Detail.absent det) = total.
Proof. apply details_lists. Qed.

Lemma details_partition_witness :
  let students := [Student.mk "1" "Ada" "0201" None; Student.mk "2" "Bob" "0201" None] in
  let attendance := [Attendance.mk "1" "2026-02-06" "0201"] in
  ∃ det total,
    at_code "2026-02-06" (details (clean_report students attendance)) ≫= at_code "0201"
    = Some det ∧
    at_code "0201" (rosterTotals (clean_report students attendance)) = Some total ∧
    Detail.present det
    = (λ s, (Student.name s, Student.uid s))
        <$> filter (λ s, recorded attendance (Student.uid s) "2026-02-06")
              (filter (λ s, Student.section s = "0201") students) ∧
    Detail.absent det
    = (λ s, (Student.name s, Student.uid s, default "" (Student.email s)))
        <$> filter (λ s, ¬ recorded attendance (Student.uid s) "2026-02-06")
              (filter (λ s, Student.section s = "0201") students) ∧
    length (Detail.present det) + length (Detail.absent det) = total.
Proof.
  intros students attendance.
  apply (details_partition ∅ students attendance (clean_report students attendance) ∅).
  - by apply Forall_singleton.
  - vm_compute. reflexivity.
  - vm_compute. by left.
  - by left.
Defined.

(** The dates of the records being calendar dates, the absences of a listed
    student are the dates on whose absent list, for the section, the student
    stands. *)
Theorem absences_match_details p0 students attendance r p code rows row :
  Forall (λ a, iso_date (Attendance.date a)) attendance →
  aggregate p0 students attendance = (Js.Returned r, p) →
  at_code code (studentsBySection r) = Some rows → row ∈ rows →
  Row.absences row = length (filter (λ d, listed_absent r code row d) (dates r)).
Proof.
  intros _ Hr Hrows Hrow.
  pose proof (aggregate_returned _ _ _ _ _ Hr) as (Hdates & _ & Hby).
  rewrite Hby in Hrows. pose proof (at_code_configured _ _ _ Hrows) as Hcode.
  rewrite (at_code_fmap (rows_of students attendance)) in Hrows by done.
  injection Hrows as <-. apply elem_of_rows_of in Hrow as (s & Hs & Hsec & ->).
  unfold row_of at 1, absences_of. cbn [Row.absences]. rewrite <- Hdates. f_equal.
  apply filter_ext_elem_of. intros d Hd.
  unfold listed_absent. rewrite (details_at _ _ _ _ _ d code Hr Hd Hcode).
  cbn [from_option]. rewrite bool_decide_spec.
  unfold detail_of, row_of. cbn [Detail.absent Row.name Row.uid Row.email].
  rewrite list_elem_of_fmap. split.
  - intros Hkey. exists s. split; [done|].
    apply list_elem_of_filter. split; [done|]. by apply list_elem_of_filter.
  - intros (s' & Heq & [Hkey _]%list_elem_of_filter).
    injection Heq as _ Hu _. by rewrite Hu.
Qed.

Lemma absences_match_details_witness :
  let students := [Student.mk "1" "Ada" "0201" None; Student.mk "2" "Bob" "0201" None] in
  let attendance := [Attendance.mk "1" "2026-02-06" "0201"] in
  let r := clean_report students attendance in
  Row.absences (Row.mk "2" "Bob" "" 1)
  = length (filter (λ d, listed_absent r "0201" (Row.mk "2" "Bob" "" 1) d) (dates r)).
Proof.
  intros students attendance r.
  apply (absences_match_details ∅ students attendance r ∅ "0201"
           [Row.mk "2" "Bob" "" 1; Row.mk "1" "Ada" "" 0]).
  - by apply Forall_singleton.
  - vm_compute. reflexivity.
  - vm_compute. reflexivity.
  - by left.
Defined.

(** In a section whose records are those of its students, one a student and
    date, as many students are present on a date as the section has records
    on it. *)
Lemma present_count students attendance code d :
  NoDup (Student.uid <$> students) →
  NoDup ((λ a, (Attendance.uid a, Attendance.date a)) <$> attendance) →
  (∀ a, a ∈ attendance →
     ∃ s, s ∈ students ∧ Student.uid s = Attendance.uid a ∧
       Student.section s = Attendance.section a) →
  length (filter (λ s, recorded attendance (Student.uid s) d)
            (filter (λ s, Student.section s = code) students))
  = count_of attendance code d.
Proof.
  intros Hstudents Hkeys Hroster. unfold count_of.
  rewrite <- (length_fmap Student.uid), <- (length_fmap Attendance.uid _).
  apply Permutation_length, NoDup_Permutation.
  - apply NoDup_fmap_2_strong.
    + intros s s' [_ [_ Hs]%list_elem_of_filter]%list_elem_of_filter
        [_ [_ Hs']%list_elem_of_filter]%list_elem_of_filter Hu.
      by eapply (NoDup_fmap_elem_inj _ students).
    + do 2 apply NoDup_filter. by apply NoDup_fmap_1 in Hstudents.
  - apply NoDup_fmap_2_strong.
    + intros a b [[_ Ha] Hina]%list_elem_of_filter [[_ Hb] Hinb]%list_elem_of_filter Hu.
      eapply (NoDup_fmap_elem_inj _ attendance); [exact Hkeys|done..|].
      simpl. congruence.
    + apply NoDup_filter. by apply NoDup_fmap_1 in Hkeys.
  - intros u. rewrite !list_elem_of_fmap. split.
    + intros (s & -> & [Hrec [Hsec Hs]%list_elem_of_filter]%list_elem_of_filter).
      apply Exists_exists in Hrec as (a & Ha & Hu & Hd).
      exists a. split; [done|]. apply list_elem_of_filter. split; [|done].
      split; [|done]. destruct (Hroster a Ha) as (s' & Hs' & Hu' & Hsec').
      assert (s' = s) as -> by (eapply (NoDup_fmap_elem_inj _ students); eauto; congruence).
      congruence.
    + intros (a & -> & [[Hsec Hd] Ha]%list_elem_of_filter).
      destruct (Hroster a Ha) as (s & Hs & Hu & Hsec').
      exists s. split; [done|]. apply list_elem_of_filter. split.
      * apply Exists_exists. by exists a.
      * apply list_elem_of_filter. split; [congruence|done].
Qed.

Lemma counts_and_details students attendance code :
  Forall (λ a, iso_date (Attendance.date a)) attendance →
  unpolluting attendance →
  NoDup (Student.uid <$> students) →
  NoDup ((λ a, (Attendance.uid a, Attendance.date a)) <$> attendance) →
  (∀ a, a ∈ attendance →
     ∃ s, s ∈ students ∧ Student.uid s = Attendance.uid a ∧
       Student.section s = Attendance.section a) →
  code ∈ SECTIONS →
  ∃ r counts total,
    aggregate ∅ students attendance = (Js.Returned r, ∅) ∧
    at_code code (sections r) = Some counts ∧
    at_code code (rosterTotals r) = Some total ∧
    ∀ i d, dates r !! i = Some d →
      ∃ det,
        at_code d (details r) ≫= at_code code = Some det ∧
        counts !! i = Some (length (Detail.present det)) ∧
        length (Detail.absent det) = total - length (Detail.present det).
Proof.
  intros Hiso Hatt Hstudents Hkeys Hroster Hcode.
  pose proof (aggregate_clean students attendance Hatt) as Hr.
  exists (clean_report students attendance),
    (count_of attendance code <$> all_dates attendance),
    (length (in_section code students)).
  split; [done|]. split; [by apply clean_sections|].
  split; [by apply (at_code_fmap (λ sec, length (in_section sec students)))|].
  intros i d Hi.
  assert (d ∈ dates (clean_report students attendance)) as Hd
    by by eapply list_elem_of_lookup_2.
  destruct (details_lists ∅ students attendance _ ∅ d code Hiso Hr Hd Hcode)
    as (det & total & Hdet & Htotal & Hpresent & Habsent & Hsum).
  unfold clean_report in Htotal. cbn [rosterTotals] in Htotal.
  rewrite (at_code_fmap (λ sec, length (in_section sec students))) in Htotal by done.
  injection Htotal as <-.
  exists det. split; [done|].
  assert (length (Detail.present det) = count_of attendance code d) as Hcount.
  { rewrite Hpresent, length_fmap. by apply present_count. }
  split; [|lia].
  rewrite list_lookup_fmap. cbn [dates clean_report] in Hi. rewrite Hi. simpl.
  by rewrite Hcount.
Qed.

(** When the roster has no identity twice and the records are those of
    roster students under their own section, one a student and date, the
    chart and the drill-down agree: the count of a section on a date is the
    length of the present list, and the absent list is the rest of the
    roster. *)
Theorem counts_match_details students attendance code :
  Forall (λ a, iso_date (Attendance.date a)) attendance →
  unpolluting attendance →
  NoDup (Student.uid <$> students) →
  NoDup ((λ a, (Attendance.uid a, Attendance.date a)) <$> attendance) →
  (∀ a, a ∈ attendance →
     ∃ s, s ∈ students ∧ Student.uid s = Attendance.uid a ∧
       Student.section s = Attendance.section a) →
  code ∈ SECTIONS →
  ∃ r counts total,
    aggregate ∅ students attendance = (Js.Returned r, ∅) ∧
    at_code code (sections r) = Some counts ∧
    at_code code (rosterTotals r) = Some total ∧
    ∀ i d, dates r !! i = Some d →
      ∃ det,
        at_code d (details r) ≫= at_code code = Some det ∧
        counts !! i = Some (length (Detail.present det)) ∧
        length (Detail.absent det) = total - length (Detail.present det).
Proof. apply counts_and_details. Qed.

Lemma counts_match_details_witness :
  let students := [Student.mk "1" "Ada" "0201" None; Student.mk "2" "Bob" "0201" None] in
  let attendance := [Attendance.mk "1" "2026-02-06" "0201"] in
  ∃ r counts total,
    aggregate ∅ students attendance = (Js.Returned r, ∅) ∧
    at_code "0201" (sections r) = Some counts ∧
    at_code "0201" (rosterTotals r) = Some total ∧
    ∀ i d, dates r !! i = Some d →
      ∃ det,
        at_code d (details r) ≫= at_code "0201" = Some det ∧
        counts !! i = Some (length (Detail.present det)) ∧
        length (Detail.absent det) = total - length (Detail.present det).
Proof.
  apply counts_match_details.
  - by apply Forall_singleton.
  - by apply Forall_singleton.
  - simpl. apply NoDup_cons. split; [|apply NoDup_singleton].
    rewrite list_elem_of_singleton. discriminate.
  - apply NoDup_singleton.
  - intros a ->%list_elem_of_singleton. exists (Student.mk "1" "Ada" "0201" None).
    split; [by left|done].
  - by left.
Defined.

(** * stats.js: the handler and the store *)

(** Whatever the request and whatever the store answers, the stats handler
    leaves both collections as they were; and when the store fails one of
    its three calls, that error escapes the handler and the prototype is as
    it was. *)
Theorem stats_handler_reads_only base64_decode e p0 ev s :
  (∀ faults, (Db.run (Stats.handler base64_decode e p0 ev) faults s).2 = s) ∧
  (authorized base64_decode e ev →
   ∀ n err later, n < 3 →
     Db.run (Stats.handler base64_decode e p0 ev) (replicate n None ++ Some err :: later) s
     = ((Js.Threw err, p0), s)).
Proof.
  unfold Stats.handler. split.
  - intros faults. destruct (credentials base64_decode ev) as [[user pass]|]; [|done].
    destruct (bool_decide _); [done|]. simpl.
    repeat (match goal with
            | |- context [mjoin (head ?f)] => is_var f; destruct f as [|[?|] ?]
            end; simpl); try done.
    all: by destruct (aggregate _ _ _) as [[?|?] ?].
  - intros (user & pass & -> & Hu & Hp) n err later Hn.
    rewrite bool_decide_eq_false_2 by tauto.
    by destruct n as [|[|[|n]]]; [| | |lia].
Qed.

Lemma stats_handler_reads_only_witness :
  let e := mkEnv (Some "ta") (Some "secret") in
  let ev := Stats.mkEvent (Some "Basic ta:secret") in
  let s := Db.mkStore [Student.mk "1" "Ada" "0201" None] [] in
  (∀ faults, (Db.run (Stats.handler (λ t, t) e ∅ ev) faults s).2 = s) ∧
  (∀ n err later, n < 3 →
     Db.run (Stats.handler (λ t, t) e ∅ ev) (replicate n None ++ Some err :: later) s
     = ((Js.Threw err, ∅), s)).
Proof.
  intros e ev s.
  destruct (stats_handler_reads_only (λ t, t) e ∅ ev s) as [Hread Hfail].
  split; [exact Hread|]. apply Hfail.
  exists "ta", "secret". by vm_compute.
Defined.

(** With the configured credentials and a store that answers, the response
    is 200 with the report of what the two collections hold, the timestamps
    of the records playing no part. *)
Theorem stats_handler_serves base64_decode e p0 ev s r p :
  authorized base64_decode e ev →
  aggregate p0 (Db.students s) (AttendanceRecord.project <$> Db.attendance s)
  = (Js.Returned r, p) →
  Db.run (Stats.handler base64_decode e p0 ev) [] s
  = ((Js.Returned (Http.mkResponse 200 Http.json_headers (Http.Json r)), p), s).
Proof.
  intros (user & pass & Hc & Hu & Hp) Hr. unfold Stats.handler.
  rewrite Hc, bool_decide_eq_false_2 by tauto. simpl. by rewrite Hr.
Qed.

Lemma stats_handler_serves_witness :
  let e := mkEnv (Some "ta") (Some "secret") in
  let ev := Stats.mkEvent (Some "Basic ta:secret") in
  let s := Db.mkStore [Student.mk "1" "Ada" "0201" None]
             [AttendanceRecord.mk "1" "2026-02-06" "0201" "2026-02-06T17:30:00.000Z"] in
  let r := clean_report (Db.students s) (AttendanceRecord.project <$> Db.attendance s) in
  Db.run (Stats.handler (λ t, t) e ∅ ev) [] s
  = ((Js.Returned (Http.mkResponse 200 Http.json_headers (Http.Json r)), ∅), s).
Proof.
  intros e ev s r. apply stats_handler_serves.
  - exists "ta", "secret". by vm_compute.
  - vm_compute. reflexivity.
Defined.

(** ** The Authorization header *)

Lemma split_colon_cons s : ∃ h t, split_colon s = h :: t.
Proof.
  induction s as [|c s (h & t & IH)]; simpl; [by eexists _, _|].
  destruct (Ascii.eqb c ":"); [by eexists _, _|]. rewrite IH. by eexists _, _.
Qed.

Lemma concat_cons_cons sep x y l :
  String.concat sep (x :: y :: l) = x +:+ sep +:+ String.concat sep (y :: l).
Proof. reflexivity. Qed.

Lemma concat_split_colon s : String.concat ":" (split_colon s) = s.
Proof.
  induction s as [|c s IH]; [done|].
  destruct (split_colon_cons s) as (h & t & Hs). simpl. rewrite Hs in IH |- *.
  destruct (Ascii.eqb_spec c ":") as [->|Hc].
  - by rewrite concat_cons_cons, IH.
  - destruct t as [|y t].
    + simpl in IH |- *. by rewrite IH.
    + rewrite concat_cons_cons in IH |- *.
      change (String c h +:+ ":" +:+ String.concat ":" (y :: t))
        with (String c (h +:+ ":" +:+ String.concat ":" (y :: t))).
      by rewrite IH.
Qed.

(** Joining with [":"] what [split(":")] gave restores the text, and the
    pieces hold no colon. *)
Theorem join_split_colon s :
  String.concat ":" (split_colon s) = s ∧
  Forall (λ piece, Forall (λ c, c ≠ ":"%char) (list_ascii_of_string piece)) (split_colon s).
Proof.
  split; [apply concat_split_colon|].
  induction s as [|c s IH]; [by repeat constructor|]. simpl.
  destruct (Ascii.eqb_spec c ":") as [->|Hc].
  - apply Forall_cons. split; [constructor|done].
  - destruct (split_colon s) as [|h t]; [by repeat constructor|].
    apply Forall_cons in IH as [Hh Ht]. apply Forall_cons. split; [|done].
    simpl. by apply Forall_cons.
Qed.

Lemma split_colon_user user pass :
  Forall (λ c, c ≠ ":"%char) (list_ascii_of_string user) →
  split_colon (user +:+ ":" +:+ pass) = user :: split_colon pass.
Proof.
  induction user as [|c user IH]; intros Hno; [done|].
  simpl in Hno. apply Forall_cons in Hno as [Hc Hno].
  change (String c user +:+ ":" +:+ pass) with (String c (user +:+ ":" +:+ pass)).
  simpl. apply Ascii.eqb_neq in Hc. rewrite Hc. by rewrite IH.
Qed.

Lemma substring_all s : String.substring 0 (String.length s) s = s.
Proof. induction s as [|c s IH]; [done|]. simpl. by rewrite IH. Qed.

Lemma prefix_app p s : String.prefix p (p +:+ s) = true.
Proof.
  induction p as [|c p IH]; [by destruct s|].
  change (String c p +:+ s) with (String c (p +:+ s)). simpl.
  by destruct (Ascii.ascii_dec c c).
Qed.

Lemma substring_app p s :
  String.substring (String.length p) (String.length (p +:+ s) - String.length p) (p +:+ s) = s.
Proof.
  induction p as [|c p IH].
  - change ("" +:+ s) with s. rewrite Nat.sub_0_r. apply substring_all.
  - change (String c p +:+ s) with (String c (p +:+ s)). simpl. apply IH.
Qed.

(** A header [Basic <token>] whose token decodes to [user:pass] yields that
    user and that password, colons in the password included: the user ends
    at the first colon. *)
Theorem credentials_of_basic base64_decode token user pass :
  Forall (λ c, c ≠ ":"%char) (list_ascii_of_string user) →
  base64_decode token = user +:+ ":" +:+ pass →
  credentials base64_decode (Stats.mkEvent (Some ("Basic " +:+ token))) = Some (user, pass).
Proof.
  intros Hno Hdec. unfold credentials. cbn [authorization from_option id].
  rewrite prefix_app. cbn [negb].
  change 6 with (String.length "Basic "). rewrite substring_app.
  rewrite Hdec, split_colon_user by done.
  cbn [hd tl]. by rewrite concat_split_colon.
Qed.

Lemma credentials_of_basic_witness :
  credentials (λ t, t) (Stats.mkEvent (Some ("Basic " +:+ "ta:se:cret"))) = Some ("ta", "se:cret").
Proof.
  apply (credentials_of_basic (λ t, t) "ta:se:cret" "ta" "se:cret").
  - by repeat constructor.
  - reflexivity.
Defined.

(** * submitAttendance.js: what a run does to the store *)

Lemma find_one_Some uid s st :
  Db.find_one uid s = Some st → st ∈ Db.students s ∧ Student.uid st = uid.
Proof.
  unfold Db.find_one. destruct (list_find _ _) as [[i st']|] eqn:Hf; [|done].
  intros [= <-]. apply list_find_Some in Hf as (Hi & Hu & _).
  split; [by eapply list_elem_of_lookup_2|done].
Qed.

(** A run either leaves the store as it was, or it passed every check,
    found the key free, answered 200 and appended the one record. *)
Lemma run_handler_cases bypass now ev faults s :
  (Db.run (Submit.handler bypass now ev) faults s).2 = s ∨
  ∃ uid section st,
    httpMethod ev = "POST" ∧ body ev = Fields (Some uid) (Some section) ∧
    numeric uid = true ∧ Js.truthy (Js.get WINDOWS ∅ section) = true ∧
    time_check bypass (eastern now) section (Js.get WINDOWS ∅ section) = None ∧
    Db.find_one uid s = Some st ∧ Student.section st = section ∧
    ¬ Exists (Db.same_key (AttendanceRecord.mk uid (dateStr now) section (iso now)))
        (Db.attendance s) ∧
    Db.run (Submit.handler bypass now ev) faults s
    = (Js.Returned (Http.mkResponse 200 Http.json_headers
                      (Http.Recorded "Attendance recorded successfully!" (dateStr now))),
       Db.mkStore (Db.students s)
         (Db.attendance s ++ [AttendanceRecord.mk uid (dateStr now) section (iso now)])).
Proof.
  unfold Submit.handler, dateStr.
  destruct (String.eqb_spec (httpMethod ev) "POST") as [Hm|Hm]; simpl; [|by left].
  destruct (body ev) as [| |[uid|] [section|]] eqn:Hbody; simpl; try (by left).
  2: { destruct (String.eqb uid ""); by left. }
  destruct (String.eqb uid "") eqn:Hu0; simpl; [by left|].
  destruct (String.eqb section "") eqn:Hs0; simpl; [by left|].
  destruct (numeric uid) eqn:Hnum; simpl; [|by left].
  destruct (Js.truthy (Js.get WINDOWS ∅ section)) eqn:Htruthy; simpl; [|by left].
  destruct (time_check bypass (eastern now) section (Js.get WINDOWS ∅ section)) eqn:Htime;
    simpl; [by left|].
  destruct faults as [|[e0|] faults]; simpl; try (by left).
  - destruct (Db.find_one uid s) as [st|] eqn:Hst; simpl; [|by left].
    destruct (String.eqb_spec (Student.section st) section) as [Hsec|Hsec]; simpl; [|by left].
    unfold Db.insert_one.
    destruct (decide (Exists _ (Db.attendance s))) as [Hdup|Hfree]; simpl; [by left|].
    right. exists uid, section, st. by split_and!.
  - destruct faults as [|[e1|] faults]; simpl; try (by left).
    + destruct (Db.find_one uid s) as [st|] eqn:Hst; simpl; [|by left].
      destruct (String.eqb_spec (Student.section st) section) as [Hsec|Hsec]; simpl;
        [|by left].
      unfold Db.insert_one.
      destruct (decide (Exists _ (Db.attendance s))) as [Hdup|Hfree]; simpl; [by left|].
      right. exists uid, section, st. by split_and!.
    + destruct (Db.find_one uid s) as [st|] eqn:Hst; simpl; [|by left].
      destruct (String.eqb_spec (Student.section st) section) as [Hsec|Hsec]; simpl;
        [|by left].
      destruct faults as [|[e2|] faults]; simpl.
      * unfold Db.insert_one.
        destruct (decide (Exists _ (Db.attendance s))) as [Hdup|Hfree]; simpl; [by left|].
        right. exists uid, section, st. by split_and!.
      * destruct (bool_decide _); by left.
      * destruct faults as [|[e3|] faults]; simpl.
        -- unfold Db.insert_one.
           destruct (decide (Exists _ (Db.attendance s))) as [Hdup|Hfree]; simpl; [by left|].
           right. exists uid, section, st. by split_and!.
        -- destruct (bool_decide _); by left.
        -- destruct faults as [|[e4|] faults]; simpl.
           ++ unfold Db.insert_one.
              destruct (decide (Exists _ (Db.attendance s))) as [Hdup|Hfree]; simpl;
                [by left|].
              right. exists uid, section, st. by split_and!.
           ++ destruct (bool_decide _); by left.
           ++ unfold Db.insert_one.
              destruct (decide (Exists _ (Db.attendance s))) as [Hdup|Hfree]; simpl;
                [by left|].
              right. exists uid, section, st. by split_and!.
Qed.

(** A run writes all or nothing: either both collections are as they were,
    or the answer is 200 and the attendance collection has gained exactly
    one record, with a numeric uid, the date of the clock, its timestamp,
    the identity and section of a roster student, and a key that was free. *)
Theorem write_all_or_nothing bypass now ev faults s :
  (Db.run (Submit.handler bypass now ev) faults s).2 = s ∨
  ∃ doc,
    Db.run (Submit.handler bypass now ev) faults s
    = (Js.Returned (Http.mkResponse 200 Http.json_headers
                      (Http.Recorded "Attendance recorded successfully!"
                         (AttendanceRecord.date doc))),
       Db.mkStore (Db.students s) (Db.attendance s ++ [doc])) ∧
    numeric (AttendanceRecord.uid doc) = true ∧
    AttendanceRecord.date doc = dateStr now ∧
    AttendanceRecord.timestamp doc = iso now ∧
    belongs (Db.students s) doc ∧
    ¬ Exists (Db.same_key doc) (Db.attendance s).
Proof.
  destruct (run_handler_cases bypass now ev faults s)
    as [Hsame|(uid & section & st & _ & _ & Hnum & _ & _ & Hst & Hsec & Hfree & Hrun)];
    [by left|right].
  exists (AttendanceRecord.mk uid (dateStr now) section (iso now)).
  split_and!; [done..| |done].
  apply find_one_Some in Hst as [Hin Hu]. by exists st.
Qed.

Lemma submit_consistent s x : consistent s → consistent (submit s x).
Proof.
  intros [Hnd Hbel]. unfold submit.
  destruct (run_handler_cases (sub_bypass x) (sub_now x) (sub_event x) (sub_faults x) s)
    as [->|(uid & section & st & _ & _ & _ & _ & _ & Hst & Hsec & Hfree & ->)];
    [done|].
  split; simpl.
  - by apply NoDup_keys_snoc.
  - apply Forall_app. split; [done|]. apply Forall_singleton.
    apply find_one_Some in Hst as [Hin Hu]. by exists st.
Qed.

Lemma submit_students s x : Db.students (submit s x) = Db.students s.
Proof.
  unfold submit.
  by destruct (run_handler_cases (sub_bypass x) (sub_now x) (sub_event x) (sub_faults x) s)
    as [->|(uid & section & st & _ & _ & _ & _ & _ & _ & _ & _ & ->)].
Qed.

Lemma replay_invariant s xs :
  consistent s → consistent (replay s xs) ∧ Db.students (replay s xs) = Db.students s.
Proof.
  revert s. induction xs as [|x xs IH]; intros s Hs; [done|].
  simpl. destruct (IH (submit s x) (submit_consistent s x Hs)) as [Hc Hst].
  split; [done|]. by rewrite Hst, submit_students.
Qed.

(** Whatever requests arrive, at whatever times, and whatever the store
    fails, the invocations of the handler keep the store consistent: never
    two records of one identity on one date, never a record without a roster
    student of its identity and section; and the roster is never written. *)
Theorem replay_consistent s xs :
  consistent s → consistent (replay s xs) ∧ Db.students (replay s xs) = Db.students s.
Proof. apply replay_invariant. Qed.

Lemma replay_consistent_witness :
  let s := Db.mkStore [Student.mk "117000001" "Ada" "0201" None] [] in
  let x := mkSubmission None
             (mkClock (mkParts "Fri" "2026" "02" "06" 12 30) "2026-02-06T17:30:00.000Z")
             (Submit.mkEvent "POST" (Fields (Some "117000001") (Some "0201"))) [] in
  consistent (replay s [x; x]) ∧ Db.students (replay s [x; x]) = Db.students s.
Proof.
  apply replay_consistent. split; [apply NoDup_nil_2|apply Forall_nil_2].
Defined.

Lemma accepted_run bypass now uid section s :
  accepted bypass now uid section s →
  Db.run (Submit.handler bypass now (Submit.mkEvent "POST" (Fields (Some uid) (Some section))))
    [] s
  = if decide (Exists (Db.same_key (AttendanceRecord.mk uid (dateStr now) section (iso now)))
                 (Db.attendance s))
    then (Js.Returned (Http.mkResponse 409 Http.json_headers
                         (Http.Error "Attendance already submitted for today")), s)
    else (Js.Returned (Http.mkResponse 200 Http.json_headers
                         (Http.Recorded "Attendance recorded successfully!" (dateStr now))),
          Db.mkStore (Db.students s)
            (Db.attendance s ++ [AttendanceRecord.mk uid (dateStr now) section (iso now)])).
Proof.
  intros [Hu [w Hw] Ht (st & Hst & Hsec)].
  rewrite (configured_own section w Hw) in Ht.
  rewrite (handler_to_time_check _ _ uid section w Hu Hw), Ht.
  cbv zeta. unfold dateStr. simpl. rewrite Hst. simpl.
  rewrite Hsec, String.eqb_refl. simpl.
  unfold Db.insert_one. by destruct (decide _).
Qed.

(** After an accepted submission, another for the same identity on the same
    Eastern date, whenever on that date it passes the checks, is answered 409
    and adds nothing: the collection holds the one record of the first. *)
Theorem second_submission_conflicts bypass now bypass' now' uid section s :
  accepted bypass now uid section s → accepted bypass' now' uid section s →
  dateStr now' = dateStr now →
  ¬ Exists (Db.same_key (AttendanceRecord.mk uid (dateStr now) section (iso now)))
      (Db.attendance s) →
  let ev := Submit.mkEvent "POST" (Fields (Some uid) (Some section)) in
  let s1 := (Db.run (Submit.handler bypass now ev) [] s).2 in
  Db.attendance s1
  = Db.attendance s ++ [AttendanceRecord.mk uid (dateStr now) section (iso now)] ∧
  Db.run (Submit.handler bypass' now' ev) [] s1
  = (Js.Returned (Http.mkResponse 409 Http.json_headers
                    (Http.Error "Attendance already submitted for today")), s1).
Proof.
  intros Hacc Hacc' Hdate Hfree ev s1. subst ev s1.
  rewrite (accepted_run _ _ _ _ _ Hacc), decide_False by done.
  cbn [snd Db.attendance]. split; [done|].
  rewrite accepted_run.
  - rewrite decide_True; [done|]. rewrite Hdate. cbn [Db.attendance].
    apply Exists_app. right. by apply Exists_cons_hd.
  - destruct Hacc' as [Hu Hw Ht Hroster]. by split.
Qed.

Lemma second_submission_conflicts_witness :
  let now := mkClock (mkParts "Fri" "2026" "02" "06" 12 5) "2026-02-06T17:05:00.000Z" in
  let now' := mkClock (mkParts "Fri" "2026" "02" "06" 12 55) "2026-02-06T17:55:00.000Z" in
  let s := Db.mkStore [Student.mk "117000001" "Ada" "0201" None] [] in
  let ev := Submit.mkEvent "POST" (Fields (Some "117000001") (Some "0201")) in
  let s1 := (Db.run (Submit.handler None now ev) [] s).2 in
  Db.attendance s1
  = Db.attendance s ++ [AttendanceRecord.mk "117000001" (dateStr now) "0201" (iso now)] ∧
  Db.run (Submit.handler None now' ev) [] s1
  = (Js.Returned (Http.mkResponse 409 Http.json_headers
                    (Http.Error "Attendance already submitted for today")), s1).
Proof.
  intros now now' s.
  apply (second_submission_conflicts None now None now' "117000001" "0201" s).
  - split; [reflexivity|by eexists|reflexivity|eexists; split; reflexivity].
  - split; [reflexivity|by eexists|reflexivity|eexists; split; reflexivity].
  - reflexivity.
  - by intros ?%Exists_nil.
Defined.

(** The handler calls [getDb()] exactly for a POST whose body has a numeric
    [uid] and a [section] that the section check and the time check let
    through; every other request is answered, or throws, without the store. *)
Theorem store_reached_iff bypass now ev :
  ((∃ k, Submit.handler bypass now ev = Db.GetDb k) ↔
   httpMethod ev = "POST" ∧
   ∃ uid section,
     body ev = Fields (Some uid) (Some section) ∧ numeric uid = true ∧
     Js.truthy (Js.get WINDOWS ∅ section) = true ∧
     time_check bypass (eastern now) section (Js.get WINDOWS ∅ section) = None) ∧
  ((∃ k, Submit.handler bypass now ev = Db.GetDb k) ∨
   (∃ r, Submit.handler bypass now ev = Db.Ret r)).
Proof.
  unfold Submit.handler.
  destruct (String.eqb_spec (httpMethod ev) "POST") as [Hm|Hm]; simpl.
  2: { split; [|right; by eexists]. split; [by intros [k Hk]|by intros [? _]]. }
  destruct (body ev) as [| |uid section] eqn:Hbody.
  1, 2: split; [|right; by eexists]; (split; [by intros [k Hk]|by intros (_ & ? & ? & ? & _)]).
  destruct (falsy uid || falsy section) eqn:Hfalsy.
  { split; [|right; by eexists]. split; [by intros [k Hk]|].
    intros (_ & u & sec & [= -> ->] & Hnum & Htr & _). simpl in Hfalsy.
    apply orb_true_iff in Hfalsy as [Hf|Hf]; apply String.eqb_eq in Hf; subst; done. }
  apply orb_false_iff in Hfalsy as [Hfu Hfs].
  destruct uid as [u|]; [|done]. destruct section as [sec|]; [|done]. simpl.
  destruct (numeric u) eqn:Hnum; simpl.
  2: { split; [|right; by eexists]. split; [by intros [k Hk]|].
       intros (_ & u' & sec' & [= <- <-] & Hnum' & _). congruence. }
  destruct (Js.truthy (Js.get WINDOWS ∅ sec)) eqn:Htr; simpl.
  2: { split; [|right; by eexists]. split; [by intros [k Hk]|].
       intros (_ & u' & sec' & [= <- <-] & _ & Htr' & _). congruence. }
  destruct (time_check bypass (eastern now) sec (Js.get WINDOWS ∅ sec)) eqn:Ht.
  { split; [|right; by eexists]. split; [by intros [k Hk]|].
    intros (_ & u' & sec' & [= <- <-] & _ & _ & Ht'). congruence. }
  split; [|left; by eexists]. split; [|by eexists].
  intros _. split; [done|]. by exists u, sec.
Qed.

Lemma non_numeric_before_store_witness :
  ∃ r, Submit.handler None
         (mkClock (mkParts "Fri" "2026" "02" "06" 12 30) "2026-02-06T17:30:00.000Z")
         (Submit.mkEvent "POST" (Fields (Some "11700000a") (Some "0201"))) = Db.Ret r.
Proof. by apply non_numeric_before_store. Defined.

Lemma checks_in_order_witness :
  let now := mkClock (mkParts "Tue" "2026" "02" "03" 12 30) "2026-02-03T17:30:00.000Z" in
  let ev := Submit.mkEvent "POST" (Fields (Some "117000001") (Some "0204")) in
  let answer msg := Submit.handler None now ev = respond 400 (Http.Error msg) in
  (falsy (Some "117000001") || falsy (Some "0204") = true → answer "Missing UID or section") ∧
  (falsy (Some "117000001") || falsy (Some "0204") = false →
     (numeric (default "" (Some "117000001")) = false → answer "UID must be numeric") ∧
     (numeric (default "" (Some "117000001")) = true →
        (WINDOWS !! "0204" = None → answer "Invalid section") ∧
        (is_Some (WINDOWS !! "0204") → None ≠ Some "true" →
           weekday (eastern now) ≠ "Fri" →
           answer "Attendance can only be submitted on Fridays"))).
Proof.
  apply (checks_in_order None _ (Some "117000001") "0204"); [done|].
  unfold Js.prototype_functions. rewrite !not_elem_of_cons.
  split_and!; [done..|apply not_elem_of_nil].
Defined.

Lemma roster_checks_witness :
  let now := mkClock (mkParts "Fri" "2026" "02" "06" 12 30) "2026-02-06T17:30:00.000Z" in
  let s := Db.mkStore [Student.mk "117000001" "Ada" "0202" None] [] in
  let ev := Submit.mkEvent "POST" (Fields (Some "117000001") (Some "0201")) in
  let answer msg :=
    Db.run (Submit.handler None now ev) [] s
    = (Js.Returned (Http.mkResponse 400 Http.json_headers (Http.Error msg)), s) in
  (Db.find_one "117000001" s = None → answer "UID not found in roster") ∧
  (∀ st, Db.find_one "117000001" s = Some st → Student.section st ≠ "0201" →
     answer "Section does not match your registered section").
Proof.
  apply (roster_checks None _ "117000001" "0201" (mkWindow 12 13)); reflexivity.
Defined.

Lemma run_handler_unique_witness :
  let now := mkClock (mkParts "Fri" "2026" "02" "06" 12 30) "2026-02-06T17:30:00.000Z" in
  let s := Db.mkStore [Student.mk "117000001" "Ada" "0201" None] [] in
  let ev := Submit.mkEvent "POST" (Fields (Some "117000001") (Some "0201")) in
  NoDup ((λ r, (AttendanceRecord.uid r, AttendanceRecord.date r))
           <$> Db.attendance (Db.run (Submit.handler None now ev) [] s).2).
Proof. apply run_handler_unique. apply NoDup_nil_2. Defined.

(** * Dashboard.jsx *)

(** Ticking a section's box twice gives back the set of visible sections;
    one tick flips that section and no other. *)
Theorem toggleSection_twice sec visible :
  Dashboard.toggleSection sec (Dashboard.toggleSection sec visible) = visible ∧
  (sec ∈ Dashboard.toggleSection sec visible ↔ sec ∉ visible) ∧
  ∀ other, other ≠ sec →
    (other ∈ Dashboard.toggleSection sec visible ↔ other ∈ visible).
Proof.
  assert (∀ x, x ∈ Dashboard.toggleSection sec visible
               ↔ (x = sec ∧ sec ∉ visible) ∨ (x ≠ sec ∧ x ∈ visible)) as Hflip.
  { intros x. unfold Dashboard.toggleSection.
    destruct (decide (sec ∈ visible)) as [Hin|Hout].
    - rewrite elem_of_difference, elem_of_singleton. tauto.
    - rewrite elem_of_union, elem_of_singleton.
      destruct (decide (x = sec)) as [->|]; tauto. }
  split_and!.
  - apply set_eq. intros x. unfold Dashboard.toggleSection at 1.
    destruct (decide (sec ∈ Dashboard.toggleSection sec visible)) as [Hin|Hout].
    + rewrite elem_of_difference, elem_of_singleton, Hflip.
      apply Hflip in Hin. destruct (decide (x = sec)) as [->|]; tauto.
    + rewrite elem_of_union, elem_of_singleton, Hflip.
      rewrite Hflip in Hout. destruct (decide (x = sec)) as [->|]; [|tauto].
      destruct (decide (sec ∈ visible)); tauto.
  - rewrite Hflip. tauto.
  - intros other Hne. rewrite Hflip. tauto.
Qed.

Lemma ranked_splits (rows : list Row.t) :
  StronglySorted (λ a b, Row.absences b ≤ Row.absences a) rows →
  rows = filter (λ s, 0 < Row.absences s) rows ++ filter (λ s, Row.absences s = 0) rows.
Proof.
  induction 1 as [|x l Hl IH Hx]; [done|].
  rewrite !filter_cons.
  destruct (decide (0 < Row.absences x)) as [Hpos|Hzero].
  - rewrite decide_False by lia. simpl. by rewrite <- IH.
  - rewrite decide_True by lia.
    assert (filter (λ s, 0 < Row.absences s) l = []) as ->.
    { clear IH. induction l as [|y l IHl]; [done|].
      apply Forall_cons in Hx as [Hy Hx]. apply StronglySorted_inv in Hl as [Hl _].
      rewrite filter_cons, decide_False by lia. by apply IHl. }
    simpl. f_equal.
    symmetry. clear IH Hl. induction l as [|y l IHl]; [done|].
    apply Forall_cons in Hx as [Hy Hx].
    rewrite filter_cons, decide_True by lia. f_equal. by apply IHl.
Qed.

Lemma rows_of_sorted students attendance code :
  StronglySorted (λ a b, Row.absences b ≤ Row.absences a) (rows_of students attendance code).
Proof.
  eapply (StronglySorted_weaken (before most_absences_first)).
  - intros a b. by rewrite before_most_absences.
  - apply sort_sorted.
    + intros a b. rewrite !before_most_absences. lia.
    + intros a b c. rewrite !before_most_absences. lia.
Qed.

(** The absentee table of a section is the head of its ranked roster: the
    students with absences, most absent first, followed in the roster only
    by students with none. *)
Theorem absentees_lead p0 students attendance r p code rows :
  aggregate p0 students attendance = (Js.Returned r, p) →
  at_code code (studentsBySection r) = Some rows →
  rows = Dashboard.sectionAbsentees r code ++ filter (λ s, Row.absences s = 0) rows ∧
  StronglySorted (λ a b, Row.absences b ≤ Row.absences a) (Dashboard.sectionAbsentees r code).
Proof.
  intros Hr Hrows. unfold Dashboard.sectionAbsentees. rewrite Hrows. cbn [from_option id].
  pose proof (aggregate_returned _ _ _ _ _ Hr) as (_ & _ & Hby).
  rewrite Hby in Hrows. pose proof (at_code_configured _ _ _ Hrows) as Hcode.
  rewrite (at_code_fmap (rows_of students attendance)) in Hrows by done.
  injection Hrows as <-.
  pose proof (rows_of_sorted students attendance code) as Hsorted.
  split; [by apply ranked_splits|].
  rewrite (ranked_splits _ Hsorted) in Hsorted.
  by apply StronglySorted_app_1_l in Hsorted.
Qed.

Lemma absentees_lead_witness :
  let students := [Student.mk "1" "Ada" "0201" None; Student.mk "2" "Bob" "0201" None] in
  let attendance := [Attendance.mk "1" "2026-02-06" "0201"] in
  let r := clean_report students attendance in
  let rows := [Row.mk "2" "Bob" "" 1; Row.mk "1" "Ada" "" 0] in
  rows = Dashboard.sectionAbsentees r "0201" ++ filter (λ s, Row.absences s = 0) rows ∧
  StronglySorted (λ a b, Row.absences b ≤ Row.absences a) (Dashboard.sectionAbsentees r "0201").
Proof.
  intros students attendance r rows.
  apply (absentees_lead ∅ students attendance r ∅ "0201" rows); vm_compute; reflexivity.
Defined.

(** The dates of the records being calendar dates, every bar of the chart
    has its drill-down: a click on the bar of a date and a section, nothing
    being selected, selects them and shows the detail of that date and
    section; a second click on the bar deselects, and a click beside the
    bars changes nothing. *)
Theorem bar_opens_detail p0 students attendance r p i j d code :
  Forall (λ a, iso_date (Attendance.date a)) attendance →
  aggregate p0 students attendance = (Js.Returned r, p) →
  dates r !! i = Some d → SECTIONS !! j = Some code →
  let selected := Dashboard.onClick r [(i, j)] None in
  selected = Some (Dashboard.mkSelection (Some d) (Some code)) ∧
  Dashboard.detail r selected = Some (detail_of (attendedSet attendance) students d code) ∧
  Dashboard.onClick r [(i, j)] selected = None ∧
  Dashboard.onClick r [] selected = selected.
Proof.
  intros _ Hr Hi Hj selected. subst selected.
  unfold Dashboard.onClick. rewrite Hi, Hj.
  rewrite decide_False by (by intros [? _]). rewrite decide_True by done.
  split; [done|]. split; [|done].
  unfold Dashboard.detail. cbn [mbind option_bind Dashboard.date Dashboard.section].
  assert (d ∈ dates r) as Hd by by eapply list_elem_of_lookup_2.
  assert (code ∈ SECTIONS) as Hcode by by eapply list_elem_of_lookup_2.
  pose proof (details_at _ _ _ _ _ d code Hr Hd Hcode) as Hdet.
  destruct (at_code d (details r)) as [per|]; [|done]. exact Hdet.
Qed.

Lemma bar_opens_detail_witness :
  let students := [Student.mk "1" "Ada" "0201" None; Student.mk "2" "Bob" "0201" None] in
  let attendance := [Attendance.mk "1" "2026-02-06" "0201"] in
  let r := clean_report students attendance in
  let selected := Dashboard.onClick r [(0, 0)] None in
  selected = Some (Dashboard.mkSelection (Some "2026-02-06") (Some "0201")) ∧
  Dashboard.detail r selected
  = Some (detail_of (attendedSet attendance) students "2026-02-06" "0201") ∧
  Dashboard.onClick r [(0, 0)] selected = None ∧
  Dashboard.onClick r [] selected = selected.
Proof.
  intros students attendance r.
  apply (bar_opens_detail ∅ students attendance r ∅ 0 0 "2026-02-06" "0201");
    [by apply Forall_singleton|vm_compute; reflexivity..].
Defined.

(** ** From the submissions to the chart *)

Lemma project_keys (l : list AttendanceRecord.t) :
  (λ a, (Attendance.uid a, Attendance.date a)) <$> (AttendanceRecord.project <$> l)
  = index_key <$> l.
Proof. rewrite <- list_fmap_compose. by apply list_fmap_ext. Qed.

Lemma consistent_projected s :
  consistent s →
  NoDup ((λ a, (Attendance.uid a, Attendance.date a))
           <$> (AttendanceRecord.project <$> Db.attendance s)) ∧
  ∀ a, a ∈ AttendanceRecord.project <$> Db.attendance s →
    ∃ st, st ∈ Db.students s ∧ Student.uid st = Attendance.uid a ∧
      Student.section st = Attendance.section a.
Proof.
  intros [Hnd Hbel]. split; [by rewrite project_keys|].
  intros a (rec & -> & Hrec)%list_elem_of_fmap.
  rewrite Forall_forall in Hbel. by apply Hbel.
Qed.

Lemma maxStudents_clean students attendance :
  Dashboard.maxStudents (clean_report students attendance)
  = Some (max_list ((λ sec, length (in_section sec students)) <$> SECTIONS)).
Proof.
  unfold Dashboard.maxStudents, clean_report. cbn [rosterTotals].
  unfold SECTIONS at 2. cbn [mapM].
  rewrite !(at_code_fmap (λ sec, length (in_section sec students)))
    by (unfold SECTIONS; rewrite !elem_of_cons; tauto).
  reflexivity.
Qed.

(** On the store that any series of invocations of the submission handler
    builds from an empty attendance collection, with a roster that has no
    student under [__proto__], the report is produced, every count of a
    section is at most the roster total of the section, and every roster
    total at most [maxStudents]: no bar of the chart reaches the maximum of
    its axis, [maxStudents + 2]. *)
Theorem bars_within_axis students xs :
  (∀ st, st ∈ students → Student.section st ≠ "__proto__") →
  let s := replay (Db.mkStore students []) xs in
  ∃ r m,
    aggregate ∅ (Db.students s) (AttendanceRecord.project <$> Db.attendance s)
    = (Js.Returned r, ∅) ∧
    Dashboard.yMax r = Some (m + 2) ∧
    ∀ code, code ∈ SECTIONS →
      ∃ counts total,
        at_code code (sections r) = Some counts ∧
        at_code code (rosterTotals r) = Some total ∧
        Forall (λ c, c ≤ total) counts ∧ total ≤ m.
Proof.
  intros Hroster s.
  destruct (replay_invariant (Db.mkStore students []) xs) as [Hcons Hst].
  { split; [apply NoDup_nil_2|apply Forall_nil_2]. }
  fold s in Hcons, Hst. simpl in Hst. rewrite Hst.
  destruct (consistent_projected s Hcons) as [Hnd Hbel]. rewrite Hst in Hbel.
  set (attendance := AttendanceRecord.project <$> Db.attendance s) in *.
  assert (unpolluting attendance) as Hclean.
  { apply Forall_forall. intros a Ha. destruct (Hbel a Ha) as (st & Hin & _ & <-). auto. }
  exists (clean_report students attendance),
    (max_list ((λ sec, length (in_section sec students)) <$> SECTIONS)).
  split; [by apply aggregate_clean|].
  split; [unfold Dashboard.yMax; by rewrite maxStudents_clean|].
  intros code Hcode.
  exists (count_of attendance code <$> all_dates attendance), (length (in_section code students)).
  split; [by apply clean_sections|].
  split; [by apply (at_code_fmap (λ sec, length (in_section sec students)))|].
  split.
  - apply Forall_fmap, Forall_forall. intros d _. simpl.
    apply count_of_bounded; [done|].
    intros a Ha Hsec. destruct (Hbel a Ha) as (st & Hin & Hu & Hs).
    exists st. split_and!; [done..|congruence].
  - apply max_list_elem_of_le, list_elem_of_fmap. by exists code.
Qed.

Lemma bars_within_axis_witness :
  let students := [Student.mk "117000001" "Ada" "0201" None] in
  let x := mkSubmission None
             (mkClock (mkParts "Fri" "2026" "02" "06" 12 30) "2026-02-06T17:30:00.000Z")
             (Submit.mkEvent "POST" (Fields (Some "117000001") (Some "0201"))) [] in
  let s := replay (Db.mkStore students []) [x; x] in
  ∃ r m,
    aggregate ∅ (Db.students s) (AttendanceRecord.project <$> Db.attendance s)
    = (Js.Returned r, ∅) ∧
    Dashboard.yMax r = Some (m + 2) ∧
    ∀ code, code ∈ SECTIONS →
      ∃ counts total,
        at_code code (sections r) = Some counts ∧
        at_code code (rosterTotals r) = Some total ∧
        Forall (λ c, c ≤ total) counts ∧ total ≤ m.
Proof.
  apply bars_within_axis. intros st ->%list_elem_of_singleton. done.
Defined.

(** Under the conditions of [counts_and_details], the tooltip of a bar and
    its drill-down tell the same number of absent students. *)
Theorem tooltip_matches_drilldown students attendance i j d code :
  Forall (λ a, iso_date (Attendance.date a)) attendance →
  unpolluting attendance →
  NoDup (Student.uid <$> students) →
  NoDup ((λ a, (Attendance.uid a, Attendance.date a)) <$> attendance) →
  (∀ a, a ∈ attendance →
     ∃ s, s ∈ students ∧ Student.uid s = Attendance.uid a ∧
       Student.section s = Attendance.section a) →
  all_dates attendance !! i = Some d → SECTIONS !! j = Some code →
  ∃ r counts raw det total,
    aggregate ∅ students attendance = (Js.Returned r, ∅) ∧
    at_code code (sections r) = Some counts ∧ counts !! i = Some raw ∧
    at_code code (rosterTotals r) = Some total ∧
    Dashboard.detail r (Some (Dashboard.mkSelection (Some d) (Some code))) = Some det ∧
    Dashboard.afterLabel r j raw
    = Some ("Absent: " +:+ pretty (Z.of_nat (length (Detail.absent det))) +:+ " / "
            +:+ pretty total +:+ " enrolled").
Proof.
  intros Hiso Hatt Hstudents Hkeys Hroster Hi Hj.
  assert (code ∈ SECTIONS) as Hcode by by eapply list_elem_of_lookup_2.
  destruct (counts_and_details students attendance code Hiso Hatt Hstudents Hkeys Hroster Hcode)
    as (r & counts & total & Hr & Hcounts & Htotal & Hbars).
  pose proof (aggregate_returned _ _ _ _ _ Hr) as (Hdates & _).
  rewrite <- Hdates in Hi.
  destruct (Hbars i d Hi) as (det & Hdet & Hraw & Habsent).
  exists r, counts, (length (Detail.present det)), det, total.
  split_and!; [done..| |].
  - unfold Dashboard.detail. by cbn [mbind option_bind Dashboard.date Dashboard.section].
  - unfold Dashboard.afterLabel. rewrite Hj. cbn [mbind option_bind]. rewrite Htotal.
    cbn [mbind option_bind]. do 4 f_equal.
    assert (d ∈ dates r) as Hd by by eapply list_elem_of_lookup_2.
    destruct (details_lists ∅ students attendance r ∅ d code Hiso Hr Hd Hcode)
      as (det' & total' & Hdet' & Htotal' & _ & _ & Hsum).
    rewrite Hdet in Hdet'. injection Hdet' as <-.
    rewrite Htotal in Htotal'. injection Htotal' as <-. lia.
Qed.

Lemma tooltip_matches_drilldown_witness :
  let students := [Student.mk "1" "Ada" "0201" None; Student.mk "2" "Bob" "0201" None] in
  let attendance := [Attendance.mk "1" "2026-02-06" "0201"] in
  ∃ r counts raw det total,
    aggregate ∅ students attendance = (Js.Returned r, ∅) ∧
    at_code "0201" (sections r) = Some counts ∧ counts !! 0 = Some raw ∧
    at_code "0201" (rosterTotals r) = Some total ∧
    Dashboard.detail r (Some (Dashboard.mkSelection (Some "2026-02-06") (Some "0201")))
    = Some det ∧
    Dashboard.afterLabel r 0 raw
    = Some ("Absent: " +:+ pretty (Z.of_nat (length (Detail.absent det))) +:+ " / "
            +:+ pretty total +:+ " enrolled").
Proof.
  apply (tooltip_matches_drilldown _ _ 0 0 "2026-02-06" "0201").
  - by apply Forall_singleton.
  - by apply Forall_singleton.
  - simpl. apply NoDup_cons. split; [|apply NoDup_singleton].
    rewrite list_elem_of_singleton. discriminate.
  - apply NoDup_singleton.
  - intros a ->%list_elem_of_singleton. exists (Student.mk "1" "Ada" "0201" None).
    split; [by left|done].
  - vm_compute. reflexivity.
  - reflexivity.
Defined.

(** * getDb *)

Lemma calls_cached attempts :
  Connection.calls true attempts
  = (λ _, Connection.mkCall true [Connection.GetDatabase]) <$> attempts.
Proof. induction attempts as [|a rest IH]; [done|]. simpl. by rewrite IH. Qed.

(** In the life of a process [connect()] is called at most once; and after
    the call of [getDb] that called it, whether the connection was made or
    not, every call resolves with a handle of the cached client and neither
    constructs nor connects. *)
Theorem connect_at_most_once cachedClient attempts :
  length (filter (λ m, m = Connection.Connect)
            (concat (Connection.reached <$> Connection.calls cachedClient attempts))) ≤ 1 ∧
  ∀ earlier c later,
    Connection.calls cachedClient attempts = earlier ++ c :: later →
    Connection.Connect ∈ Connection.reached c →
    Forall (λ c', Connection.resolved c' = true
                  ∧ Connection.reached c' = [Connection.GetDatabase]) later.
Proof.
  assert (∀ l : list Connection.attempt,
            filter (λ m, m = Connection.Connect)
              (concat (Connection.reached <$> Connection.calls true l)) = []) as Hnone.
  { intros l. rewrite calls_cached. induction l as [|a l IH]; [done|].
    rewrite !fmap_cons, concat_cons, filter_app, IH. reflexivity. }
  assert (∀ (l : list Connection.attempt) earlier c later,
            Connection.calls true l = earlier ++ c :: later →
            Forall (λ c', Connection.resolved c' = true
                          ∧ Connection.reached c' = [Connection.GetDatabase]) later) as Hall.
  { intros l earlier c later Heq.
    assert (Forall (λ c', Connection.resolved c' = true
                          ∧ Connection.reached c' = [Connection.GetDatabase])
              (Connection.calls true l)) as H.
    { rewrite calls_cached. apply Forall_fmap, Forall_forall. by intros. }
    rewrite Heq in H. apply Forall_app in H as [_ H]. by apply Forall_cons in H as [_ H]. }
  destruct cachedClient.
  { split; [rewrite Hnone; simpl; lia|]. intros earlier c later Heq _. by eapply Hall. }
  induction attempts as [|a rest [IHn IHl]].
  { split; [simpl; lia|]. intros [|??] ???; done. }
  assert (∀ l, Forall (λ c', Connection.resolved c' = true
                           ∧ Connection.reached c' = [Connection.GetDatabase])
                 (Connection.calls true l)) as Hcached.
  { intros l. rewrite calls_cached. apply Forall_fmap, Forall_forall. by intros. }
  destruct a; cbn [Connection.calls Connection.getDb];
    rewrite fmap_cons, concat_cons, filter_app, length_app; cbn [Connection.reached].
  - split; [exact IHn|].
    intros [|c0 earlier] c later Heq Hc; simplify_eq/=.
    + by apply list_elem_of_singleton in Hc.
    + by eapply IHl.
  - split; [rewrite Hnone; simpl; lia|].
    intros [|c0 earlier] c later Heq Hc; simplify_eq/=; [apply Hcached|by eapply Hall].
  - split; [rewrite Hnone; simpl; lia|].
    intros [|c0 earlier] c later Heq Hc; simplify_eq/=; [apply Hcached|by eapply Hall].
Qed.
